(** * create_test_ppt.py: the sample-presentation generator

    A shallow embedding of [create_test_presentation] and of the part of
    its runtime that the script touches: [os.path] (POSIX flavour), the
    python-pptx object model (presentation, slide layouts, slides,
    placeholder shapes, text frames, paragraphs), the file system and the
    standard output stream.

    Python objects live in a heap and the script's local variables hold
    references into it, so every [x.text = ...] is an update of the shared
    presentation object, as in the source. *)

From Stdlib Require Import Ascii String.
From stdpp Require Import gmap strings list fin_maps.

Local Open Scope string_scope.
Local Open Scope list_scope.

(* ===================================================================== *)
(** ** os.path (posixpath)                                                *)
(* ===================================================================== *)

Module Posixpath.

Definition sep : ascii := "/"%char.

Definition is_sep (c : ascii) : bool := Ascii.eqb c sep.

Fixpoint dropwhile (f : ascii -> bool) (l : list ascii) : list ascii :=
  match l with
  | [] => []
  | c :: l' => if f c then dropwhile f l' else l
  end.

(** [s.rstrip('/')] on the characters of [s]. *)
Definition rstrip_sep (l : list ascii) : list ascii :=
  rev (dropwhile is_sep (rev l)).

(** [p[:p.rfind('/') + 1]]: everything up to and including the last
    separator, the empty string when there is none. *)
Definition head_part (l : list ascii) : list ascii :=
  rev (dropwhile (fun c => negb (is_sep c)) (rev l)).

(** [p[p.rfind('/') + 1:]]. *)
Definition tail_part (l : list ascii) : list ascii :=
  drop (length (head_part l)) l.

(** posixpath.dirname:
    [i = p.rfind('/') + 1; head = p[:i];
     if head and head != '/' * len(head): head = head.rstrip('/')] *)
Definition dirname_chars (l : list ascii) : list ascii :=
  let head := head_part l in
  if forallb is_sep head then head else rstrip_sep head.

Definition dirname (p : string) : string :=
  string_of_list_ascii (dirname_chars (list_ascii_of_string p)).

(** posixpath.basename: [p[p.rfind('/') + 1:]]. *)
Definition basename (p : string) : string :=
  string_of_list_ascii (tail_part (list_ascii_of_string p)).

Definition startswith_sep (l : list ascii) : bool :=
  match l with
  | c :: _ => is_sep c
  | [] => false
  end.

Definition endswith_sep (l : list ascii) : bool :=
  startswith_sep (rev l).

(** posixpath.join with one further component:
    [if b.startswith('/'): path = b
     elif not path or path.endswith('/'): path += b
     else: path += '/' + b] *)
Definition join_chars (a b : list ascii) : list ascii :=
  if startswith_sep b then b
  else match a with
       | [] => b
       | _ => if endswith_sep a then a ++ b else a ++ sep :: b
       end.

Definition join (a b : string) : string :=
  string_of_list_ascii
    (join_chars (list_ascii_of_string a) (list_ascii_of_string b)).

End Posixpath.

(* ===================================================================== *)
(** ** The python-pptx object model                                       *)
(* ===================================================================== *)

(** Placeholder types ([pptx.enum.shapes.PP_PLACEHOLDER]) that occur in
    slide layouts. *)
Inductive PP_PLACEHOLDER :=
| TITLE | CENTER_TITLE | SUBTITLE | BODY | OBJECT | PICTURE
| DATE | FOOTER | SLIDE_NUMBER.

#[global] Instance PP_PLACEHOLDER_eq_dec : EqDecision PP_PLACEHOLDER.
Proof. solve_decision. Defined.

(** A placeholder of a slide layout: its [idx] key and its type. *)
Record LayoutPlaceholder := {
  lph_idx : nat;
  lph_type : PP_PLACEHOLDER
}.

Record SlideLayout := {
  layout_name : string;
  layout_placeholders : list LayoutPlaceholder
}.

(** A placeholder shape on a slide.  [paragraphs] holds the text of each
    paragraph of the shape's text frame, as [Paragraph.text] reads it. *)
Record Shape := {
  ph_idx : nat;
  ph_type : PP_PLACEHOLDER;
  paragraphs : list string
}.

(** A slide remembers the layout it was created from (the position of that
    layout in [prs.slide_layouts]) and owns its shapes, in document order. *)
Record Slide := {
  slide_layout : nat;
  shapes : list Shape
}.

Record Presentation := {
  slide_layouts : list SlideLayout;
  slides : list Slide
}.

(* ===================================================================== *)
(** ** Exceptions, the outside world, the interpreter state                *)
(* ===================================================================== *)

Inductive exn :=
| IndexError          (* prs.slide_layouts[i], i out of range *)
| KeyError            (* slide.placeholders[idx], no such idx *)
| AttributeError      (* attribute access on None *)
| ReferenceError      (* a reference to an object that is not in the heap *)
| PackageError (code : nat)   (* the library cannot load a package *)
| OSError (errno : nat)       (* the operating system refuses an operation *)
| UnicodeEncodeError          (* a text the stream's encoding cannot hold *)
| ValueError.                 (* an operation on a closed stream *)

#[global] Instance exn_eq_dec : EqDecision exn.
Proof. solve_decision. Defined.

Inductive outcome (A : Type) :=
| Ok (a : A)
| Raise (e : exn).
Arguments Ok {A} a.
Arguments Raise {A} e.

(** What a path of the file system holds. A presentation package is kept
    as the document it encodes: the zip container and its metadata are
    not modelled. *)
Inductive File :=
| Pptx (d : Presentation)
| Truncated                   (* left behind by a write that failed midway *)
| Other (content : string).

(** What the operating system answers when a file is opened for writing
    and written. *)
Inductive WriteResult :=
| WriteOk
| WriteDenied (errno : nat)     (* refused on open: nothing is written *)
| WriteBroken (errno : nat).    (* fails midway: a partial file remains *)

(** What standard output answers when a text is written to it. A write
    that fails leaves nothing on the stream. *)
Inductive PrintResult :=
| PrintOk
| PrintEncodeError              (* the encoding cannot hold the text *)
| PrintClosed                   (* the stream is closed *)
| PrintBroken (errno : nat).    (* the reader of the stream is gone *)

(** Externally visible actions, in the order they happen. *)
Inductive Event :=
| EvOpenTemplate                (* the library reads its bundled template *)
| EvWriteFile (path : string)   (* a file is opened for writing *)
| EvPrint (text : string).      (* text is written to standard output *)

#[global] Instance Event_eq_dec : EqDecision Event.
Proof. solve_decision. Defined.

(** Everything a run can read and never changes. *)
Record Env := {
  file__ : string;                            (* __file__ *)
  name__ : string;                            (* __name__ *)
  cwd : string;                               (* os.getcwd() *)
  argv : list string;                         (* sys.argv *)
  environ : list (string * string);           (* os.environ *)
  (* the layouts of the library's default template, or the failure of
     loading it *)
  load_default_template : exn + list SlideLayout;
  (* how the file system reacts to a write at a path *)
  fs_write : string -> WriteResult;
  (* how standard output reacts to a text *)
  stdout_write : string -> PrintResult
}.

Record World := {
  fs : gmap string File;
  stdout : string;
  trace : list Event
}.

Record State := {
  heap : list Presentation;
  world : World
}.

(* ===================================================================== *)
(** ** A state-and-exception monad for Python statements                   *)
(* ===================================================================== *)

Definition M (A : Type) : Type := State -> outcome A * State.

Definition ret {A} (a : A) : M A := fun s => (Ok a, s).

Definition raise {A} (e : exn) : M A := fun s => (Raise e, s).

Definition bind {A B} (m : M A) (k : A -> M B) : M B :=
  fun s =>
    match m s with
    | (Ok a, s') => k a s'
    | (Raise e, s') => (Raise e, s')
    end.

Declare Scope py_scope.
Delimit Scope py_scope with py.
Notation "x <~ m ;; k" := (bind m (fun x => k))
  (at level 100, m at next level, right associativity) : py_scope.
Notation "m ;;; k" := (bind m (fun _ => k))
  (at level 100, right associativity) : py_scope.

Definition get_heap : M (list Presentation) := fun s => (Ok (heap s), s).

Definition modify_heap (f : list Presentation -> list Presentation) : M unit :=
  fun s => (Ok tt, {| heap := f (heap s); world := world s |}).

Definition modify_world (f : World -> World) : M unit :=
  fun s => (Ok tt, {| heap := heap s; world := f (world s) |}).

Definition log_event (e : Event) (w : World) : World :=
  {| fs := fs w; stdout := stdout w; trace := trace w ++ [e] |}.

Definition log (e : Event) : M unit := modify_world (log_event e).

(* ===================================================================== *)
(** ** References into the heap                                           *)
(* ===================================================================== *)

Definition PrsRef := nat.
Record LayoutRef := { lr_prs : PrsRef; lr_idx : nat }.
Record SlideRef := { sr_prs : PrsRef; sr_idx : nat }.
Record ShapeRef := { shr_slide : SlideRef; shr_pos : nat }.
Record TextFrameRef := { tf_shape : ShapeRef }.
Record ParagraphRef := { pr_frame : TextFrameRef; pr_pos : nat }.

Definition with_slides (f : list Slide -> list Slide) (p : Presentation) :=
  {| slide_layouts := slide_layouts p; slides := f (slides p) |}.

Definition with_shapes (f : list Shape -> list Shape) (s : Slide) :=
  {| slide_layout := slide_layout s; shapes := f (shapes s) |}.

Definition with_paragraphs (f : list string -> list string) (sh : Shape) :=
  {| ph_idx := ph_idx sh; ph_type := ph_type sh;
     paragraphs := f (paragraphs sh) |}.

Definition deref_prs (r : PrsRef) : M Presentation :=
  (h <~ get_heap ;;
   match h !! r with
   | Some p => ret p
   | None => raise ReferenceError
   end)%py.

Definition deref_slide (r : SlideRef) : M Slide :=
  (p <~ deref_prs (sr_prs r) ;;
   match slides p !! sr_idx r with
   | Some s => ret s
   | None => raise ReferenceError
   end)%py.

Definition update_slide (r : SlideRef) (f : Slide -> Slide) : M unit :=
  modify_heap (alter (with_slides (alter f (sr_idx r))) (sr_prs r)).

Definition update_shape (r : ShapeRef) (f : Shape -> Shape) : M unit :=
  update_slide (shr_slide r) (with_shapes (alter f (shr_pos r))).

(* ===================================================================== *)
(** ** python-pptx operations used by the script                           *)
(* ===================================================================== *)

Definition LF : ascii := "010"%char.
Definition VT : ascii := "011"%char.
Definition newline : string := String LF EmptyString.

(** [text.split("\n")]. *)
Fixpoint split_lf (s : string) : list string :=
  match s with
  | EmptyString => [EmptyString]
  | String c s' =>
      if Ascii.eqb c LF then EmptyString :: split_lf s'
      else match split_lf s' with
           | x :: xs => String c x :: xs
           | [] => [String c EmptyString]
           end
  end.

(** Inside one paragraph a line feed is stored as a line break, which
    [Paragraph.text] reads back as a vertical tab. *)
Fixpoint lf_to_vt (s : string) : string :=
  match s with
  | EmptyString => EmptyString
  | String c s' => String (if Ascii.eqb c LF then VT else c) (lf_to_vt s')
  end.

(** [Presentation()]: open the bundled default template and build a new
    presentation object from it; the default template has no slides. *)
Definition new_Presentation (env : Env) : M PrsRef :=
  (log EvOpenTemplate ;;;
   match load_default_template env with
   | inl e => raise e
   | inr layouts =>
       h <~ get_heap ;;
       modify_heap (fun h => h ++ [{| slide_layouts := layouts; slides := [] |}]) ;;;
       ret (length h)
   end)%py.

(** [prs.slide_layouts[i]] for a non-negative literal [i]. *)
Definition slide_layouts_getitem (prs : PrsRef) (i : nat) : M LayoutRef :=
  (p <~ deref_prs prs ;;
   match slide_layouts p !! i with
   | Some _ => ret {| lr_prs := prs; lr_idx := i |}
   | None => raise IndexError
   end)%py.

(** Date, footer and slide-number placeholders of a layout are not copied
    to a new slide. *)
Definition cloneable (ph : LayoutPlaceholder) : bool :=
  match lph_type ph with
  | DATE | FOOTER | SLIDE_NUMBER => false
  | _ => true
  end.

(** The shape a new slide gets for a layout placeholder: same idx and
    type, a text frame with one empty paragraph. *)
Definition clone_placeholder (ph : LayoutPlaceholder) : Shape :=
  {| ph_idx := lph_idx ph; ph_type := lph_type ph;
     paragraphs := [EmptyString] |}.

Definition clone_layout_placeholders (l : SlideLayout) : list Shape :=
  clone_placeholder <$> List.filter cloneable (layout_placeholders l).

(** [prs.slides.add_slide(layout)]: the new slide goes to the end of
    [prs.slides]. *)
Definition add_slide (prs : PrsRef) (layout : LayoutRef) : M SlideRef :=
  (p <~ deref_prs prs ;;
   match slide_layouts p !! lr_idx layout with
   | None => raise ReferenceError
   | Some l =>
       let new_slide := {| slide_layout := lr_idx layout;
                           shapes := clone_layout_placeholders l |} in
       modify_heap (alter (with_slides (fun ss => ss ++ [new_slide])) prs) ;;;
       ret {| sr_prs := prs; sr_idx := length (slides p) |}
   end)%py.

(** Position of the first placeholder shape whose idx is [k]. *)
Fixpoint find_ph (k : nat) (l : list Shape) : option nat :=
  match l with
  | [] => None
  | sh :: l' => if bool_decide (ph_idx sh = k) then Some 0
                else S <$> find_ph k l'
  end.

(** [slide.shapes.title]: the first placeholder with idx 0, or [None]. *)
Definition shapes_title (slide : SlideRef) : M (option ShapeRef) :=
  (s <~ deref_slide slide ;;
   ret ((fun i => {| shr_slide := slide; shr_pos := i |})
          <$> find_ph 0 (shapes s)))%py.

(** [slide.placeholders[idx]]: a lookup by the placeholder's idx key. *)
Definition placeholders_getitem (slide : SlideRef) (k : nat) : M ShapeRef :=
  (s <~ deref_slide slide ;;
   match find_ph k (shapes s) with
   | Some i => ret {| shr_slide := slide; shr_pos := i |}
   | None => raise KeyError
   end)%py.

(** [shape.text_frame]; the variable may hold [None]. *)
Definition text_frame (shape : option ShapeRef) : M TextFrameRef :=
  match shape with
  | Some r => ret {| tf_shape := r |}
  | None => raise AttributeError
  end.

(** [tf.text = s]: all paragraphs are replaced, one per line of [s]. *)
Definition text_frame_set_text (tf : TextFrameRef) (s : string) : M unit :=
  update_shape (tf_shape tf) (with_paragraphs (fun _ => split_lf s)).

(** [shape.text = s], which is [shape.text_frame.text = s]. *)
Definition shape_set_text (shape : option ShapeRef) (s : string) : M unit :=
  (tf <~ text_frame shape ;; text_frame_set_text tf s)%py.

(** [tf.add_paragraph()]: a new empty paragraph at the end. *)
Definition add_paragraph (tf : TextFrameRef) : M ParagraphRef :=
  (s <~ deref_slide (shr_slide (tf_shape tf)) ;;
   match shapes s !! shr_pos (tf_shape tf) with
   | None => raise ReferenceError
   | Some sh =>
       update_shape (tf_shape tf)
         (with_paragraphs (fun ps => ps ++ [EmptyString])) ;;;
       ret {| pr_frame := tf; pr_pos := length (paragraphs sh) |}
   end)%py.

(** [p.text = s]. *)
Definition paragraph_set_text (p : ParagraphRef) (s : string) : M unit :=
  update_shape (tf_shape (pr_frame p))
    (with_paragraphs (fun ps => <[pr_pos p := lf_to_vt s]> ps)).

(** [prs.save(path)]: the file is opened for writing, whatever it held
    before is replaced. *)
Definition save (env : Env) (prs : PrsRef) (path : string) : M unit :=
  (p <~ deref_prs prs ;;
   log (EvWriteFile path) ;;;
   match fs_write env path with
   | WriteOk =>
       modify_world (fun w =>
         {| fs := <[path := Pptx p]> (fs w);
            stdout := stdout w; trace := trace w |})
   | WriteDenied n => raise (OSError n)
   | WriteBroken n =>
       modify_world (fun w =>
         {| fs := <[path := Truncated]> (fs w);
            stdout := stdout w; trace := trace w |}) ;;;
       raise (OSError n)
   end)%py.

(** [print(s)]: [s] and a line terminator go to standard output, unless
    the stream refuses the text. *)
Definition print (env : Env) (s : string) : M unit :=
  match stdout_write env s with
  | PrintOk =>
      (log (EvPrint s) ;;;
       modify_world (fun w =>
         {| fs := fs w; stdout := stdout w +:+ s +:+ newline;
            trace := trace w |}))%py
  | PrintEncodeError => raise UnicodeEncodeError
  | PrintClosed => raise ValueError
  | PrintBroken n => raise (OSError n)
  end.

(* ===================================================================== *)
(** ** The script                                                         *)
(* ===================================================================== *)

(** [os.path.join(os.path.dirname(__file__), "sample.pptx")] *)
Definition output_path (env : Env) : string :=
  Posixpath.join (Posixpath.dirname (file__ env)) "sample.pptx".

(** The text of the f-string
    [f"Created test presentation at: {output_path}"]. *)
Definition success_message (path : string) : string :=
  "Created test presentation at: " +:+ path.

Arguments output_path : simpl never.
Arguments success_message : simpl never.

Definition create_test_presentation (env : Env) : M unit :=
  (prs <~ new_Presentation env ;;
   (* Add a title slide *)
   title_slide_layout <~ slide_layouts_getitem prs 0 ;;
   slide <~ add_slide prs title_slide_layout ;;
   title <~ shapes_title slide ;;
   subtitle <~ placeholders_getitem slide 1 ;;
   shape_set_text title "Test Presentation" ;;;
   shape_set_text (Some subtitle) "Created by file2ai" ;;;
   (* Add a content slide *)
   bullet_slide_layout <~ slide_layouts_getitem prs 1 ;;
   slide <~ add_slide prs bullet_slide_layout ;;
   title <~ shapes_title slide ;;
   body <~ placeholders_getitem slide 1 ;;
   shape_set_text title "Sample Content" ;;;
   tf <~ text_frame (Some body) ;;
   text_frame_set_text tf "This is a test slide" ;;;
   p <~ add_paragraph tf ;;
   paragraph_set_text p "• Bullet point 1" ;;;
   p <~ add_paragraph tf ;;
   paragraph_set_text p "• Bullet point 2" ;;;
   (* Save the presentation *)
   let output_path := output_path env in
   save env prs output_path ;;;
   print env (success_message output_path))%py.

(** The module's top level: after the imports and the [def], the call
    under [if __name__ == "__main__":]. *)
Definition module_body (env : Env) : M unit :=
  if String.eqb (name__ env) "__main__"
  then create_test_presentation env
  else ret tt.

(** A process starts with an empty heap; an uncaught exception ends it
    with status 1, a normal end with status 0. *)
Definition init_state (w : World) : State := {| heap := []; world := w |}.

Definition exit_status {A} (o : outcome A) : nat :=
  match o with
  | Ok _ => 0
  | Raise _ => 1
  end.

Definition run (m : M unit) (w : World) : outcome unit * World :=
  let '(o, s) := m (init_state w) in (o, world s).

(** One run of the generator. *)
Definition generate (env : Env) (w : World) : outcome unit * World :=
  run (create_test_presentation env) w.

(** Running the file as a script, or importing it. *)
Definition run_module (env : Env) (w : World) : outcome unit * World :=
  run (module_body env) w.

(* ===================================================================== *)
(** ** Reading a presentation back                                        *)
(* ===================================================================== *)

(** [shape.text]: the paragraphs' texts joined by line feeds. *)
Definition shape_text (sh : Shape) : string :=
  String.concat newline (paragraphs sh).

(** The placeholder shape of a slide with idx [k]
    ([slide.placeholders[k]]). *)
Definition slide_placeholder (s : Slide) (k : nat) : option Shape :=
  i ← find_ph k (shapes s); shapes s !! i.

(** The title shape of a slide ([slide.shapes.title]). *)
Definition slide_title (s : Slide) : option Shape := slide_placeholder s 0.

(* ===================================================================== *)
(** ** A concrete environment: python-pptx's default template             *)
(* ===================================================================== *)

Definition lph (i : nat) (t : PP_PLACEHOLDER) : LayoutPlaceholder :=
  {| lph_idx := i; lph_type := t |}.

Definition footers : list LayoutPlaceholder :=
  [lph 10 DATE; lph 11 FOOTER; lph 12 SLIDE_NUMBER].

Definition title_layout : SlideLayout :=
  {| layout_name := "Title Slide";
     layout_placeholders := [lph 0 CENTER_TITLE; lph 1 SUBTITLE] ++ footers |}.

Definition content_layout : SlideLayout :=
  {| layout_name := "Title and Content";
     layout_placeholders := [lph 0 TITLE; lph 1 OBJECT] ++ footers |}.

Definition default_layouts : list SlideLayout :=
  [ title_layout;
    content_layout;
    {| layout_name := "Section Header";
       layout_placeholders := [lph 0 TITLE; lph 1 BODY] ++ footers |};
    {| layout_name := "Two Content";
       layout_placeholders :=
         [lph 0 TITLE; lph 1 OBJECT; lph 2 OBJECT] ++ footers |};
    {| layout_name := "Comparison";
       layout_placeholders :=
         [lph 0 TITLE; lph 1 BODY; lph 2 OBJECT; lph 3 BODY; lph 4 OBJECT]
         ++ footers |};
    {| layout_name := "Title Only";
       layout_placeholders := [lph 0 TITLE] ++ footers |};
    {| layout_name := "Blank"; layout_placeholders := footers |};
    {| layout_name := "Content with Caption";
       layout_placeholders :=
         [lph 0 TITLE; lph 1 OBJECT; lph 2 BODY] ++ footers |};
    {| layout_name := "Picture with Caption";
       layout_placeholders :=
         [lph 0 TITLE; lph 1 PICTURE; lph 2 BODY] ++ footers |};
    {| layout_name := "Title and Vertical Text";
       layout_placeholders := [lph 0 TITLE; lph 1 BODY] ++ footers |};
    {| layout_name := "Vertical Title and Text";
       layout_placeholders := [lph 0 TITLE; lph 1 BODY] ++ footers |} ].

(** The script at /home/dev/git2txt/create_test_ppt.py, run directly from
    another directory, on a file system that accepts the write. *)
Definition sample_env : Env :=
  {| file__ := "/home/dev/git2txt/create_test_ppt.py";
     name__ := "__main__";
     cwd := "/tmp";
     argv := ["/home/dev/git2txt/create_test_ppt.py"];
     environ := [("HOME", "/home/dev")];
     load_default_template := inr default_layouts;
     fs_write := fun _ => WriteOk;
     stdout_write := fun _ => PrintOk |}.

Definition empty_world : World := {| fs := ∅; stdout := ""; trace := [] |}.

(* ===================================================================== *)
(** ** The script, statement by statement, in closed form                  *)
(* ===================================================================== *)

Definition st (h : list Presentation) (w : World) : State :=
  {| heap := h; world := w |}.

(** The heap after an update of the shape at position [i] of slide [n]. *)
Definition upd (n i : nat) (f : Shape -> Shape) (p : Presentation) :=
  with_slides (alter (with_shapes (alter f i)) n) p.

(** The title slide, when its title shape is at position [i] and its
    placeholder 1 at position [j]. *)
Definition title_slide (l0 : SlideLayout) (i j : nat) : Slide :=
  {| slide_layout := 0;
     shapes :=
       alter (with_paragraphs (fun _ => split_lf "Created by file2ai")) j
         (alter (with_paragraphs (fun _ => split_lf "Test Presentation")) i
            (clone_layout_placeholders l0)) |}.

(** The content slide, in the same way. *)
Definition content_slide (l1 : SlideLayout) (i j : nat) : Slide :=
  {| slide_layout := 1;
     shapes :=
       alter (with_paragraphs
                (fun ps => <[2 := lf_to_vt "• Bullet point 2"]> ps)) j
         (alter (with_paragraphs (fun ps => ps ++ [EmptyString])) j
            (alter (with_paragraphs
                      (fun ps => <[1 := lf_to_vt "• Bullet point 1"]> ps)) j
               (alter (with_paragraphs (fun ps => ps ++ [EmptyString])) j
                  (alter (with_paragraphs
                            (fun _ => split_lf "This is a test slide")) j
                     (alter (with_paragraphs
                               (fun _ => split_lf "Sample Content")) i
                        (clone_layout_placeholders l1)))))) |}.

(** What lines 10 to 28 of the script leave in the heap, or the exception
    they stop with, as a function of the template's layouts: the lookups
    in the order the script makes them, [placeholders[1]] before the first
    use of the title. [generate_eq] below proves that the script computes
    exactly this. *)
Definition deck_of_layouts (ls : list SlideLayout) : outcome Presentation :=
  match ls !! 0 with
  | None => Raise IndexError
  | Some l0 =>
      match find_ph 1 (clone_layout_placeholders l0) with
      | None => Raise KeyError
      | Some j0 =>
          match find_ph 0 (clone_layout_placeholders l0) with
          | None => Raise AttributeError
          | Some i0 =>
              match ls !! 1 with
              | None => Raise IndexError
              | Some l1 =>
                  match find_ph 1 (clone_layout_placeholders l1) with
                  | None => Raise KeyError
                  | Some j1 =>
                      match find_ph 0 (clone_layout_placeholders l1) with
                      | None => Raise AttributeError
                      | Some i1 =>
                          Ok {| slide_layouts := ls;
                                slides := [title_slide l0 i0 j0;
                                           content_slide l1 i1 j1] |}
                      end
                  end
              end
          end
      end
  end.

(** The world after a successful save and print. *)
Definition saved_world (env : Env) (d : Presentation) (w : World) : World :=
  {| fs := <[output_path env := Pptx d]> (fs w);
     stdout := stdout w +:+ success_message (output_path env) +:+ newline;
     trace := trace w ++ [EvOpenTemplate; EvWriteFile (output_path env);
                          EvPrint (success_message (output_path env))] |}.

(** The world after a successful save whose print failed: the file is
    there, standard output is as it was. *)
Definition written_world (env : Env) (d : Presentation) (w : World) : World :=
  {| fs := <[output_path env := Pptx d]> (fs w);
     stdout := stdout w;
     trace := trace w ++ [EvOpenTemplate; EvWriteFile (output_path env)] |}.

(** The exception the print of the success line ends with, if any. *)
Definition print_outcome (env : Env) : option exn :=
  match stdout_write env (success_message (output_path env)) with
  | PrintOk => None
  | PrintEncodeError => Some UnicodeEncodeError
  | PrintClosed => Some ValueError
  | PrintBroken n => Some (OSError n)
  end.

(** The outcome of a whole run and the world it leaves; [generate_eq]
    proves that [generate] computes it. *)
Definition generate_result (env : Env) (w : World) : outcome unit * World :=
  match load_default_template env with
  | inl e => (Raise e, log_event EvOpenTemplate w)
  | inr ls =>
      match deck_of_layouts ls with
      | Raise e => (Raise e, log_event EvOpenTemplate w)
      | Ok d =>
          match fs_write env (output_path env) with
          | WriteOk =>
              match print_outcome env with
              | None => (Ok tt, saved_world env d w)
              | Some e => (Raise e, written_world env d w)
              end
          | WriteDenied n =>
              (Raise (OSError n),
               {| fs := fs w; stdout := stdout w;
                  trace := trace w ++ [EvOpenTemplate;
                                       EvWriteFile (output_path env)] |})
          | WriteBroken n =>
              (Raise (OSError n),
               {| fs := <[output_path env := Truncated]> (fs w);
                  stdout := stdout w;
                  trace := trace w ++ [EvOpenTemplate;
                                       EvWriteFile (output_path env)] |})
          end
      end
  end.

(* ===================================================================== *)
(** ** Observing a run                                                    *)
(* ===================================================================== *)

(** The idx and the type of a placeholder shape: what a slide takes over
    from its layout. *)
Definition ph_key (sh : Shape) : nat * PP_PLACEHOLDER := (ph_idx sh, ph_type sh).

(** The characters of the fixed file name. *)
Definition sample_pptx : list ascii := list_ascii_of_string "sample.pptx".

(** The events a run adds to the trace. *)
Definition events_of (w w' : World) : list Event :=
  drop (length (trace w)) (trace w').

(** The paths opened for writing among some events. *)
Definition file_writes (evs : list Event) : list string :=
  omap (fun e => match e with EvWriteFile p => Some p | _ => None end) evs.

(** The texts printed among some events. *)
Definition prints (evs : list Event) : list string :=
  omap (fun e => match e with EvPrint s => Some s | _ => None end) evs.

(** The exception a step of the run fails with, when every step before it
    went through: loading the template, the lookups while the two slides
    are built, the write of the file, the print of the success line. *)
Definition raised_by_step (env : Env) (e : exn) : Prop :=
  load_default_template env = inl e
  \/ (exists ls, load_default_template env = inr ls
                 /\ deck_of_layouts ls = Raise e)
  \/ (exists ls d n,
        load_default_template env = inr ls /\ deck_of_layouts ls = Ok d
        /\ e = OSError n
        /\ (fs_write env (output_path env) = WriteDenied n
            \/ fs_write env (output_path env) = WriteBroken n))
  \/ (exists ls d,
        load_default_template env = inr ls /\ deck_of_layouts ls = Ok d
        /\ fs_write env (output_path env) = WriteOk
        /\ print_outcome env = Some e).

(** A layout fits the script when a slide made from it has a title shape
    and a placeholder with idx 1. *)
Definition layout_fits (l : SlideLayout) : Prop :=
  is_Some (find_ph 0 (clone_layout_placeholders l))
  /\ is_Some (find_ph 1 (clone_layout_placeholders l)).

(* ===================================================================== *)
(** ** Further environments and worlds                                    *)
(* ===================================================================== *)

(** A run whose directory refuses the write (EACCES). *)
Definition denied_env : Env :=
  {| file__ := "/srv/readonly/create_test_ppt.py";
     name__ := "__main__";
     cwd := "/srv/readonly";
     argv := ["create_test_ppt.py"];
     environ := [];
     load_default_template := inr default_layouts;
     fs_write := fun _ => WriteDenied 13;
     stdout_write := fun _ => PrintOk |}.

(** The module imported from another program. *)
Definition imported_env : Env :=
  {| file__ := "/home/dev/git2txt/create_test_ppt.py";
     name__ := "create_test_ppt";
     cwd := "/home/dev/git2txt";
     argv := ["other.py"];
     environ := [];
     load_default_template := inr default_layouts;
     fs_write := fun _ => WriteOk;
     stdout_write := fun _ => PrintOk |}.

(** A world in which the output file already exists. *)
Definition stale_world : World :=
  {| fs := {[ "/home/dev/git2txt/sample.pptx" := Other "old bytes" ]};
     stdout := ""; trace := [] |}.

(** [os.path.isabs(p)]: the path starts with a separator. *)
Definition isabs (p : string) : bool :=
  Posixpath.startswith_sep (list_ascii_of_string p).


Definition blank_layout : SlideLayout :=
  {| layout_name := "Blank"; layout_placeholders := footers |}.

Definition two_content_layout : SlideLayout :=
  {| layout_name := "Two Content";
     layout_placeholders :=
       [lph 0 TITLE; lph 1 OBJECT; lph 2 OBJECT] ++ footers |}.

(** A template whose first layout has no placeholder that a slide takes
    over. *)
Definition blank_first_env : Env :=
  {| file__ := "/home/dev/git2txt/create_test_ppt.py";
     name__ := "__main__";
     cwd := "/home/dev/git2txt";
     argv := ["create_test_ppt.py"];
     environ := [];
     load_default_template := inr [blank_layout; content_layout];
     fs_write := fun _ => WriteOk;
     stdout_write := fun _ => PrintOk |}.

(** A template whose second layout has a third placeholder. *)
Definition wide_env : Env :=
  {| file__ := "/home/dev/git2txt/create_test_ppt.py";
     name__ := "__main__";
     cwd := "/home/dev/git2txt";
     argv := ["create_test_ppt.py"];
     environ := [];
     load_default_template := inr [title_layout; two_content_layout];
     fs_write := fun _ => WriteOk;
     stdout_write := fun _ => PrintOk |}.

(** The script started as [python create_test_ppt.py] by an interpreter
    that leaves [__file__] as it was typed. *)
Definition bare_env : Env :=
  {| file__ := "create_test_ppt.py";
     name__ := "__main__";
     cwd := "/home/dev/git2txt";
     argv := ["create_test_ppt.py"];
     environ := [];
     load_default_template := inr default_layouts;
     fs_write := fun _ => WriteOk;
     stdout_write := fun _ => PrintOk |}.

(** A process that already holds a presentation of its own. *)
Definition busy_state : State :=
  {| heap := [{| slide_layouts := [blank_layout]; slides := [] |}];
     world := stale_world |}.

(** The number of line terminators in a text, which is the number of
    lines on a stream that holds it. *)
Fixpoint count_lf (s : string) : nat :=
  match s with
  | EmptyString => 0
  | String c s' => (if Ascii.eqb c LF then 1 else 0) + count_lf s'
  end.

(** The script kept in a directory whose name has a line feed in it. *)
Definition lf_env : Env :=
  {| file__ := "/tmp/a" +:+ newline +:+ "b/create_test_ppt.py";
     name__ := "__main__";
     cwd := "/tmp";
     argv := ["create_test_ppt.py"];
     environ := [];
     load_default_template := inr default_layouts;
     fs_write := fun _ => WriteOk;
     stdout_write := fun _ => PrintOk |}.

(** Standard output with an encoding that cannot hold the success line,
    as an ASCII stream and a directory name outside ASCII give. *)
Definition ascii_stdout_env : Env :=
  {| file__ := "/home/dev/café/create_test_ppt.py";
     name__ := "__main__";
     cwd := "/home/dev/café";
     argv := ["create_test_ppt.py"];
     environ := [];
     load_default_template := inr default_layouts;
     fs_write := fun _ => WriteOk;
     stdout_write := fun _ => PrintEncodeError |}.

(** The library cannot load its default template. *)
Definition no_template_env : Env :=
  {| file__ := "/home/dev/git2txt/create_test_ppt.py";
     name__ := "__main__";
     cwd := "/home/dev/git2txt";
     argv := ["create_test_ppt.py"];
     environ := [];
     load_default_template := inl (PackageError 2);
     fs_write := fun _ => WriteOk;
     stdout_write := fun _ => PrintOk |}.

(** The template can be loaded and the slides made from its layouts 0
    and 1 have what the script looks up. *)
Definition template_fits (env : Env) : Prop :=
  exists ls l0 l1,
    load_default_template env = inr ls
    /\ ls !! 0 = Some l0 /\ ls !! 1 = Some l1
    /\ layout_fits l0 /\ layout_fits l1.

(* ===================================================================== *)
(** ** Lemmas on placeholder lookup                                       *)
(* ===================================================================== *)

Lemma find_ph_Some k l i :
  find_ph k l = Some i -> exists sh, l !! i = Some sh /\ ph_idx sh = k.
Proof.
  revert i. induction l as [|sh l IH]; intros i; cbn; [discriminate|].
  case_bool_decide as Hk.
  - intros [= <-]. eauto.
  - destruct (find_ph k l) as [n|]; cbn; [|discriminate].
    intros [= <-]. cbn. eauto.
Qed.

Lemma find_ph_alter k f i l :
  (forall sh, ph_idx (f sh) = ph_idx sh) ->
  find_ph k (alter f i l) = find_ph k l.
Proof.
  intros Hf. revert i. induction l as [|sh l IH]; intros [|i]; cbn; auto.
  - by rewrite Hf.
  - by rewrite IH.
Qed.

Lemma find_ph_distinct k k' l i j :
  find_ph k l = Some i -> find_ph k' l = Some j -> k <> k' -> i <> j.
Proof.
  intros Hi Hj Hne ->.
  apply find_ph_Some in Hi as (sh & Hsh & <-).
  apply find_ph_Some in Hj as (sh' & Hsh' & <-).
  congruence.
Qed.

(* ===================================================================== *)
(** ** One equation per statement of the script                           *)
(* ===================================================================== *)

Lemma bind_eq {A B} (m : M A) (k : A -> M B) s :
  bind m k s = match m s with
               | (Ok a, s') => k a s'
               | (Raise e, s') => (Raise e, s')
               end.
Proof. reflexivity. Qed.

Lemma new_Presentation_eq env w :
  new_Presentation env (st [] w) =
  match load_default_template env with
  | inl e => (Raise e, st [] (log_event EvOpenTemplate w))
  | inr ls => (Ok 0, st [{| slide_layouts := ls; slides := [] |}]
                        (log_event EvOpenTemplate w))
  end.
Proof.
  unfold new_Presentation. rewrite bind_eq.
  destruct (load_default_template env); reflexivity.
Qed.

Lemma slide_layouts_getitem_eq p w i :
  slide_layouts_getitem 0 i (st [p] w) =
  match slide_layouts p !! i with
  | Some _ => (Ok {| lr_prs := 0; lr_idx := i |}, st [p] w)
  | None => (Raise IndexError, st [p] w)
  end.
Proof.
  unfold slide_layouts_getitem. rewrite bind_eq.
  change (deref_prs 0 (st [p] w)) with (@Ok Presentation p, st [p] w).
  cbv beta iota. destruct (slide_layouts p !! i); reflexivity.
Qed.

Lemma add_slide_eq p w i l :
  slide_layouts p !! i = Some l ->
  add_slide 0 {| lr_prs := 0; lr_idx := i |} (st [p] w) =
  (Ok {| sr_prs := 0; sr_idx := length (slides p) |},
   st [with_slides (fun ss => ss ++ [{| slide_layout := i;
                                         shapes := clone_layout_placeholders l |}]) p] w).
Proof.
  intros Hl. unfold add_slide. rewrite bind_eq.
  change (deref_prs 0 (st [p] w)) with (@Ok Presentation p, st [p] w).
  cbv beta iota. cbn [lr_idx]. rewrite Hl. reflexivity.
Qed.

Lemma deref_slide_eq p w n s :
  slides p !! n = Some s ->
  deref_slide {| sr_prs := 0; sr_idx := n |} (st [p] w) = (Ok s, st [p] w).
Proof.
  intros Hs. unfold deref_slide. rewrite bind_eq.
  change (deref_prs _ (st [p] w)) with (@Ok Presentation p, st [p] w).
  cbv beta iota. cbn [sr_idx]. rewrite Hs. reflexivity.
Qed.

Lemma shapes_title_eq p w n s :
  slides p !! n = Some s ->
  shapes_title {| sr_prs := 0; sr_idx := n |} (st [p] w) =
  (Ok ((fun i => {| shr_slide := {| sr_prs := 0; sr_idx := n |}; shr_pos := i |})
         <$> find_ph 0 (shapes s)), st [p] w).
Proof.
  intros Hs. unfold shapes_title. rewrite bind_eq.
  rewrite (deref_slide_eq _ _ _ _ Hs). reflexivity.
Qed.

Lemma placeholders_getitem_eq p w n s k :
  slides p !! n = Some s ->
  placeholders_getitem {| sr_prs := 0; sr_idx := n |} k (st [p] w) =
  match find_ph k (shapes s) with
  | Some i => (Ok {| shr_slide := {| sr_prs := 0; sr_idx := n |}; shr_pos := i |},
               st [p] w)
  | None => (Raise KeyError, st [p] w)
  end.
Proof.
  intros Hs. unfold placeholders_getitem. rewrite bind_eq.
  rewrite (deref_slide_eq _ _ _ _ Hs). cbv beta iota.
  destruct (find_ph k (shapes s)); reflexivity.
Qed.

Lemma update_shape_eq p w n i f :
  update_shape {| shr_slide := {| sr_prs := 0; sr_idx := n |}; shr_pos := i |} f
    (st [p] w) = (Ok tt, st [upd n i f p] w).
Proof. reflexivity. Qed.

Lemma shape_set_text_eq p w n i txt :
  shape_set_text
    (Some {| shr_slide := {| sr_prs := 0; sr_idx := n |}; shr_pos := i |}) txt
    (st [p] w) =
  (Ok tt, st [upd n i (with_paragraphs (fun _ => split_lf txt)) p] w).
Proof. reflexivity. Qed.

Lemma shape_set_text_None p w txt :
  shape_set_text None txt (st [p] w) = (Raise AttributeError, st [p] w).
Proof. reflexivity. Qed.

Lemma add_paragraph_eq p w n i s sh :
  slides p !! n = Some s -> shapes s !! i = Some sh ->
  add_paragraph
    {| tf_shape := {| shr_slide := {| sr_prs := 0; sr_idx := n |}; shr_pos := i |} |}
    (st [p] w) =
  (Ok {| pr_frame := {| tf_shape :=
            {| shr_slide := {| sr_prs := 0; sr_idx := n |}; shr_pos := i |} |};
         pr_pos := length (paragraphs sh) |},
   st [upd n i (with_paragraphs (fun ps => ps ++ [EmptyString])) p] w).
Proof.
  intros Hs Hsh. unfold add_paragraph. rewrite bind_eq.
  cbn [tf_shape shr_slide shr_pos].
  rewrite (deref_slide_eq _ _ _ _ Hs). cbv beta iota.
  rewrite Hsh. reflexivity.
Qed.

Lemma save_eq env p w path :
  save env 0 path (st [p] w) =
  match fs_write env path with
  | WriteOk =>
      (Ok tt, st [p] {| fs := <[path := Pptx p]> (fs w); stdout := stdout w;
                        trace := trace w ++ [EvWriteFile path] |})
  | WriteDenied n => (Raise (OSError n), st [p] (log_event (EvWriteFile path) w))
  | WriteBroken n =>
      (Raise (OSError n),
       st [p] {| fs := <[path := Truncated]> (fs w); stdout := stdout w;
                 trace := trace w ++ [EvWriteFile path] |})
  end.
Proof.
  unfold save. rewrite bind_eq.
  change (deref_prs 0 (st [p] w)) with (@Ok Presentation p, st [p] w).
  cbv beta iota. rewrite bind_eq.
  change (log (EvWriteFile path) (st [p] w))
    with (Ok tt, st [p] (log_event (EvWriteFile path) w)).
  cbv beta iota.
  destruct (fs_write env path); reflexivity.
Qed.

Lemma print_eq env h w s :
  print env s (st h w) =
  match stdout_write env s with
  | PrintOk =>
      (Ok tt, st h {| fs := fs w; stdout := stdout w +:+ s +:+ newline;
                      trace := trace w ++ [EvPrint s] |})
  | PrintEncodeError => (Raise UnicodeEncodeError, st h w)
  | PrintClosed => (Raise ValueError, st h w)
  | PrintBroken n => (Raise (OSError n), st h w)
  end.
Proof. unfold print. destruct (stdout_write env s); reflexivity. Qed.

(* ===================================================================== *)
(** ** The run equation                                                   *)
(* ===================================================================== *)

Ltac step lem := rewrite bind_eq; rewrite lem; cbv beta iota.
Ltac step_with lem :=
  rewrite bind_eq; erewrite lem by first [eassumption | reflexivity];
  cbv beta iota.

Lemma text_frame_set_text_eq p w n i txt :
  text_frame_set_text
    {| tf_shape := {| shr_slide := {| sr_prs := 0; sr_idx := n |}; shr_pos := i |} |}
    txt (st [p] w) =
  (Ok tt, st [upd n i (with_paragraphs (fun _ => split_lf txt)) p] w).
Proof. reflexivity. Qed.

Lemma paragraph_set_text_eq p w n i k txt :
  paragraph_set_text
    {| pr_frame := {| tf_shape :=
         {| shr_slide := {| sr_prs := 0; sr_idx := n |}; shr_pos := i |} |};
       pr_pos := k |} txt (st [p] w) =
  (Ok tt, st [upd n i (with_paragraphs (fun ps => <[k := lf_to_vt txt]> ps)) p] w).
Proof. reflexivity. Qed.

Lemma generate_eq env w : generate env w = generate_result env w.
Proof.
  unfold generate, generate_result, run, create_test_presentation.
  change (init_state w) with (st [] w).
  step new_Presentation_eq.
  destruct (load_default_template env) as [e|ls]; [reflexivity|].
  unfold deck_of_layouts.
  (* the title slide *)
  step slide_layouts_getitem_eq. cbn [slide_layouts].
  destruct (ls !! 0) as [l0|] eqn:Hl0; [|reflexivity].
  step_with add_slide_eq. cbn [slides length].
  step_with shapes_title_eq.
  step_with placeholders_getitem_eq. cbn [shapes].
  destruct (find_ph 1 (clone_layout_placeholders l0)) as [j0|] eqn:Hj0;
    [|reflexivity].
  destruct (find_ph 0 (clone_layout_placeholders l0)) as [i0|] eqn:Hi0;
    cbn [fmap option_fmap option_map]; [|reflexivity].
  step shape_set_text_eq.
  step shape_set_text_eq.
  match goal with
  | |- context [st [?p] _] =>
      change p with {| slide_layouts := ls; slides := [title_slide l0 i0 j0] |}
  end.
  (* the content slide *)
  step slide_layouts_getitem_eq. cbn [slide_layouts].
  destruct (ls !! 1) as [l1|] eqn:Hl1; [|reflexivity].
  step_with add_slide_eq. cbn [slides length].
  step_with shapes_title_eq.
  step_with placeholders_getitem_eq. cbn [shapes].
  destruct (find_ph 1 (clone_layout_placeholders l1)) as [j1|] eqn:Hj1;
    [|reflexivity].
  destruct (find_ph 0 (clone_layout_placeholders l1)) as [i1|] eqn:Hi1;
    cbn [fmap option_fmap option_map]; [|reflexivity].
  assert (Hne : i1 <> j1) by (eapply find_ph_distinct; eauto).
  destruct (find_ph_Some _ _ _ Hj1) as (shb & Hshb & _).
  step shape_set_text_eq.
  rewrite bind_eq. cbn [text_frame ret]. cbv beta iota.
  step text_frame_set_text_eq.
  set (S0 := with_paragraphs (fun _ => split_lf "Sample Content")).
  set (T0 := with_paragraphs (fun _ => split_lf "This is a test slide")).
  set (A0 := with_paragraphs (fun ps => ps ++ [EmptyString])).
  set (base := clone_layout_placeholders l1) in *.
  assert (H1 : alter T0 j1 (alter S0 i1 base) !! j1 = Some (T0 shb)).
  { rewrite list_lookup_alter_eq, list_lookup_alter_ne, Hshb by done. done. }
  rewrite bind_eq.
  erewrite add_paragraph_eq; [|reflexivity|exact H1].
  cbv beta iota.
  step paragraph_set_text_eq.
  set (P1 := with_paragraphs
               (fun ps => <[length (paragraphs (T0 shb)) :=
                            lf_to_vt "• Bullet point 1"]> ps)).
  assert (H2 : alter P1 j1 (alter A0 j1 (alter T0 j1 (alter S0 i1 base))) !! j1
               = Some (P1 (A0 (T0 shb)))).
  { rewrite 2!list_lookup_alter_eq, H1. done. }
  rewrite bind_eq.
  erewrite add_paragraph_eq; [|reflexivity|exact H2].
  cbv beta iota.
  step paragraph_set_text_eq.
  step save_eq.
  match goal with
  | |- context [st [?p] _] =>
      change p with {| slide_layouts := ls;
                       slides := [title_slide l0 i0 j0; content_slide l1 i1 j1] |}
  end.
  destruct (fs_write env (output_path env)).
  - rewrite print_eq. unfold print_outcome.
    destruct (stdout_write env (success_message (output_path env)));
      unfold saved_world, written_world, log_event;
      cbn [fs stdout trace world st]; by rewrite <- !app_assoc.
  - unfold log_event. cbn [fs stdout trace world st]. by rewrite <- !app_assoc.
  - unfold log_event. cbn [fs stdout trace world st]. by rewrite <- !app_assoc.
Qed.

(* ===================================================================== *)
(** ** What the two slides hold                                           *)
(* ===================================================================== *)

Lemma title_slide_texts l0 i j :
  find_ph 0 (clone_layout_placeholders l0) = Some i ->
  find_ph 1 (clone_layout_placeholders l0) = Some j ->
  exists t sub,
    slide_title (title_slide l0 i j) = Some t
    /\ ph_idx t = 0 /\ paragraphs t = ["Test Presentation"]
    /\ slide_placeholder (title_slide l0 i j) 1 = Some sub
    /\ ph_idx sub = 1 /\ paragraphs sub = ["Created by file2ai"].
Proof.
  intros Hi Hj.
  assert (Hne : i <> j) by (eapply find_ph_distinct; eauto).
  destruct (find_ph_Some _ _ _ Hi) as (sh0 & Hsh0 & Hidx0).
  destruct (find_ph_Some _ _ _ Hj) as (sh1 & Hsh1 & Hidx1).
  unfold slide_title, slide_placeholder, title_slide. cbn [shapes].
  rewrite !find_ph_alter by done. rewrite Hi, Hj. cbn [mbind option_bind].
  rewrite list_lookup_alter_ne, list_lookup_alter_eq, Hsh0 by done.
  rewrite list_lookup_alter_eq, list_lookup_alter_ne, Hsh1 by done.
  cbn [fmap option_fmap option_map].
  do 2 eexists.
  split; [reflexivity|]. split; [exact Hidx0|]. split; [reflexivity|].
  split; [reflexivity|]. split; [exact Hidx1|]. reflexivity.
Qed.

Lemma content_slide_texts l1 i j :
  find_ph 0 (clone_layout_placeholders l1) = Some i ->
  find_ph 1 (clone_layout_placeholders l1) = Some j ->
  exists t body,
    slide_title (content_slide l1 i j) = Some t
    /\ ph_idx t = 0 /\ paragraphs t = ["Sample Content"]
    /\ slide_placeholder (content_slide l1 i j) 1 = Some body
    /\ ph_idx body = 1
    /\ paragraphs body =
       ["This is a test slide"; "• Bullet point 1"; "• Bullet point 2"].
Proof.
  intros Hi Hj.
  assert (Hne : i <> j) by (eapply find_ph_distinct; eauto).
  destruct (find_ph_Some _ _ _ Hi) as (sh0 & Hsh0 & Hidx0).
  destruct (find_ph_Some _ _ _ Hj) as (sh1 & Hsh1 & Hidx1).
  unfold slide_title, slide_placeholder, content_slide. cbn [shapes].
  rewrite !find_ph_alter by done. rewrite Hi, Hj. cbn [mbind option_bind].
  rewrite !list_lookup_alter_ne, list_lookup_alter_eq, Hsh0 by done.
  rewrite !list_lookup_alter_eq, list_lookup_alter_ne, Hsh1 by done.
  cbn [fmap option_fmap option_map].
  do 2 eexists.
  split; [reflexivity|]. split; [exact Hidx0|]. split; [reflexivity|].
  split; [reflexivity|]. split; [exact Hidx1|]. reflexivity.
Qed.

(** Text updates leave the idx and the type of every shape alone. *)
Lemma ph_key_alter f i (l : list Shape) :
  (forall sh, ph_key (f sh) = ph_key sh) ->
  ph_key <$> alter f i l = ph_key <$> l.
Proof.
  intros Hf. revert i. induction l as [|sh l IH]; intros [|i]; cbn; auto.
  - by rewrite Hf.
  - f_equal. apply IH.
Qed.

Lemma title_slide_keys l0 i j :
  ph_key <$> shapes (title_slide l0 i j)
  = ph_key <$> clone_layout_placeholders l0.
Proof. unfold title_slide. cbn [shapes]. rewrite !ph_key_alter; done. Qed.

Lemma content_slide_keys l1 i j :
  ph_key <$> shapes (content_slide l1 i j)
  = ph_key <$> clone_layout_placeholders l1.
Proof. unfold content_slide. cbn [shapes]. rewrite !ph_key_alter; done. Qed.

Lemma deck_of_layouts_Ok ls d :
  deck_of_layouts ls = Ok d ->
  exists l0 l1 i0 j0 i1 j1,
    ls !! 0 = Some l0 /\ ls !! 1 = Some l1
    /\ find_ph 0 (clone_layout_placeholders l0) = Some i0
    /\ find_ph 1 (clone_layout_placeholders l0) = Some j0
    /\ find_ph 0 (clone_layout_placeholders l1) = Some i1
    /\ find_ph 1 (clone_layout_placeholders l1) = Some j1
    /\ d = {| slide_layouts := ls;
              slides := [title_slide l0 i0 j0; content_slide l1 i1 j1] |}.
Proof.
  unfold deck_of_layouts. intros H.
  destruct (ls !! 0) as [l0|] eqn:?; [|discriminate].
  destruct (find_ph 1 (clone_layout_placeholders l0)) as [j0|] eqn:?;
    [|discriminate].
  destruct (find_ph 0 (clone_layout_placeholders l0)) as [i0|] eqn:?;
    [|discriminate].
  destruct (ls !! 1) as [l1|] eqn:?; [|discriminate].
  destruct (find_ph 1 (clone_layout_placeholders l1)) as [j1|] eqn:?;
    [|discriminate].
  destruct (find_ph 0 (clone_layout_placeholders l1)) as [i1|] eqn:?;
    [|discriminate].
  injection H as <-. by exists l0, l1, i0, j0, i1, j1.
Qed.

(** Building the deck stops with the exception of a failed lookup only. *)
Lemma deck_of_layouts_Raise ls e :
  deck_of_layouts ls = Raise e ->
  e = IndexError \/ e = KeyError \/ e = AttributeError.
Proof.
  unfold deck_of_layouts.
  repeat match goal with
         | |- context [match ?x with _ => _ end] => destruct x
         end; intros [= <-]; auto.
Qed.

(** A run that ends normally loaded the template, built the deck, and
    wrote and announced it. *)
Lemma generate_Ok env w w' :
  generate env w = (Ok tt, w') ->
  exists ls d,
    load_default_template env = inr ls /\ deck_of_layouts ls = Ok d
    /\ fs_write env (output_path env) = WriteOk
    /\ w' = saved_world env d w.
Proof.
  rewrite generate_eq. unfold generate_result.
  destruct (load_default_template env) as [e|ls] eqn:?; [discriminate|].
  destruct (deck_of_layouts ls) as [d|e] eqn:?; [|discriminate].
  destruct (fs_write env (output_path env)) eqn:?; [|discriminate..].
  destruct (print_outcome env); [discriminate|].
  intros [= <-]. by exists ls, d.
Qed.

Lemma print_outcome_None env :
  print_outcome env = None
  <-> stdout_write env (success_message (output_path env)) = PrintOk.
Proof.
  unfold print_outcome.
  by destruct (stdout_write env (success_message (output_path env))).
Qed.

(** The print of a step that raised is one of three exceptions. *)
Lemma print_outcome_Some env e :
  print_outcome env = Some e ->
  (exists n, e = OSError n) \/ e = UnicodeEncodeError \/ e = ValueError.
Proof.
  unfold print_outcome.
  destruct (stdout_write env (success_message (output_path env)));
    intros [= <-]; eauto.
Qed.

(** A run that ends normally had its success line accepted. *)
Lemma generate_Ok_print env w w' :
  generate env w = (Ok tt, w') -> print_outcome env = None.
Proof.
  rewrite generate_eq. unfold generate_result.
  destruct (load_default_template env) as [e|ls]; [discriminate|].
  destruct (deck_of_layouts ls) as [d|e]; [|discriminate].
  destruct (fs_write env (output_path env)); [|discriminate..].
  by destruct (print_outcome env).
Qed.

Lemma generate_sample :
  generate sample_env empty_world
  = (Ok tt,
     saved_world sample_env
       {| slide_layouts := default_layouts;
          slides := [title_slide title_layout 0 1;
                     content_slide content_layout 0 1] |}
       empty_world).
Proof. rewrite generate_eq. reflexivity. Qed.

(* ===================================================================== *)
(** ** Where the output file goes                                         *)
(* ===================================================================== *)

Section PathFacts.
Import Posixpath.

Local Abbreviation sample := sample_pptx.

Lemma dropwhile_head f l :
  match dropwhile f l with
  | [] => True
  | c :: _ => f c = false
  end.
Proof.
  induction l as [|c l IH]; cbn; [done|].
  destruct (f c) eqn:Hc; [exact IH | exact Hc].
Qed.

(** A directory name ends with a separator only when it consists of
    separators (the root). *)
Lemma dirname_chars_root l :
  endswith_sep (dirname_chars l) = true ->
  forallb is_sep (dirname_chars l) = true.
Proof.
  unfold dirname_chars.
  destruct (forallb is_sep (head_part l)) eqn:Hall; [done|].
  unfold endswith_sep, rstrip_sep. rewrite rev_involutive.
  pose proof (dropwhile_head is_sep (rev (head_part l))) as Hd.
  destruct (dropwhile is_sep (rev (head_part l))) as [|c r]; cbn; [done|].
  congruence.
Qed.

Lemma head_part_join d :
  (endswith_sep d = true -> forallb is_sep d = true) ->
  dirname_chars (join_chars d sample) = d
  /\ tail_part (join_chars d sample) = sample.
Proof.
  intros Hroot. unfold join_chars.
  change (startswith_sep sample) with false. cbv iota.
  pose proof (rev_involutive d) as Hd.
  unfold endswith_sep in *.
  destruct (rev d) as [|c r] eqn:Hr.
  { cbn in Hd. subst d. by vm_compute. }
  destruct d as [|c0 d0] eqn:Hd0.
  { apply (f_equal (@length ascii)) in Hd. rewrite length_rev in Hd.
    discriminate. }
  rewrite <- Hd0 in *. clear Hd0 c0 d0.
  cbn [startswith_sep] in *.
  destruct (is_sep c) eqn:Hc.
  - (* the directory is the root *)
    specialize (Hroot eq_refl).
    assert (Hhead : head_part (d ++ sample) = d).
    { unfold head_part. rewrite rev_app_distr, Hr. cbn. rewrite Hc. cbn.
      exact Hd. }
    split.
    + unfold dirname_chars. rewrite Hhead. by rewrite Hroot.
    + unfold tail_part. rewrite Hhead. apply drop_app_length.
  - (* a separator is put between the directory and the file name *)
    assert (Hhead : head_part (d ++ sep :: sample) = d ++ [sep]).
    { unfold head_part. rewrite rev_app_distr. cbn. by rewrite rev_involutive. }
    assert (Hall : forallb is_sep (d ++ [sep]) = false).
    { rewrite <- Hd. cbn [rev]. rewrite !forallb_app. cbn. rewrite Hc.
      by rewrite andb_false_r. }
    split.
    + unfold dirname_chars. rewrite Hhead, Hall.
      unfold rstrip_sep. rewrite rev_app_distr, Hr. cbn [rev app dropwhile].
      change (is_sep sep) with true. cbv iota. cbn [dropwhile]. rewrite Hc.
      exact Hd.
    + unfold tail_part. rewrite Hhead.
      replace (d ++ sep :: sample) with ((d ++ [sep]) ++ sample)
        by (by rewrite <- app_assoc).
      apply drop_app_length.
Qed.

Lemma dirname_output_path env :
  dirname (output_path env) = dirname (file__ env).
Proof.
  unfold output_path, join, dirname.
  rewrite !list_ascii_of_string_of_list_ascii.
  f_equal. apply (proj1 (head_part_join _ (dirname_chars_root _))).
Qed.

Lemma basename_output_path env :
  basename (output_path env) = "sample.pptx".
Proof.
  unfold output_path, join, basename, dirname.
  rewrite !list_ascii_of_string_of_list_ascii.
  change "sample.pptx" with (string_of_list_ascii sample) at 2.
  f_equal. apply (proj2 (head_part_join _ (dirname_chars_root _))).
Qed.
End PathFacts.

(* ===================================================================== *)
(** ** What a run does to the world                                       *)
(* ===================================================================== *)

Lemma generate_events env w :
  events_of w (generate env w).2 =
  match load_default_template env with
  | inl _ => [EvOpenTemplate]
  | inr ls =>
      match deck_of_layouts ls with
      | Raise _ => [EvOpenTemplate]
      | Ok _ =>
          match fs_write env (output_path env) with
          | WriteOk =>
              match print_outcome env with
              | None => [EvOpenTemplate; EvWriteFile (output_path env);
                         EvPrint (success_message (output_path env))]
              | Some _ => [EvOpenTemplate; EvWriteFile (output_path env)]
              end
          | _ => [EvOpenTemplate; EvWriteFile (output_path env)]
          end
      end
  end.
Proof.
  rewrite generate_eq. unfold generate_result, events_of.
  destruct (load_default_template env) as [e|ls].
  { apply drop_app_length. }
  destruct (deck_of_layouts ls) as [d|e]; [|apply drop_app_length].
  destruct (fs_write env (output_path env)); [|apply drop_app_length..].
  destruct (print_outcome env); apply drop_app_length.
Qed.

(** Apart from the output path, no path of the file system changes. *)
Lemma generate_frame env w p :
  p <> output_path env -> fs (generate env w).2 !! p = fs w !! p.
Proof.
  intros Hp. rewrite generate_eq. unfold generate_result.
  destruct (load_default_template env) as [e|ls]; [done|].
  destruct (deck_of_layouts ls) as [d|e]; [|done].
  destruct (fs_write env (output_path env)); cbn; [|done|].
  - destruct (print_outcome env); cbn; by rewrite lookup_insert_ne.
  - by rewrite lookup_insert_ne.
Qed.

(* ===================================================================== *)
(** ** More on the output path                                            *)
(* ===================================================================== *)

Section MorePathFacts.
Import Posixpath.

Lemma dropwhile_split f l :
  exists t, l = t ++ dropwhile f l /\ forallb f t = true.
Proof.
  induction l as [|c l (t & Hl & Ht)]; cbn.
  - by exists [].
  - destruct (f c) eqn:Hc.
    + exists (c :: t). cbn. rewrite Hc, Ht. split; [by f_equal|done].
    + by exists [].
Qed.

Lemma forallb_rev_true (f : ascii -> bool) t :
  forallb f t = true -> forallb f (rev t) = true.
Proof.
  rewrite !forallb_forall. intros H c Hc. apply H. by apply in_rev.
Qed.

(** [head_part] cuts the path after its last separator. *)
Lemma head_part_split l :
  exists t, l = head_part l ++ t
            /\ forallb (fun c => negb (is_sep c)) t = true.
Proof.
  unfold head_part.
  destruct (dropwhile_split (fun c => negb (is_sep c)) (rev l)) as (t & Hl & Ht).
  exists (rev t). split; [|by apply forallb_rev_true].
  rewrite <- rev_app_distr, <- Hl. by rewrite rev_involutive.
Qed.

Lemma rstrip_sep_split l :
  exists t, l = rstrip_sep l ++ t /\ forallb is_sep t = true.
Proof.
  unfold rstrip_sep.
  destruct (dropwhile_split is_sep (rev l)) as (t & Hl & Ht).
  exists (rev t). split; [|by apply forallb_rev_true].
  rewrite <- rev_app_distr, <- Hl. by rewrite rev_involutive.
Qed.

(** The directory name is a prefix of the path. *)
Lemma dirname_chars_prefix l : exists t, l = dirname_chars l ++ t.
Proof.
  destruct (head_part_split l) as (t & Hl & _). unfold dirname_chars.
  destruct (forallb is_sep (head_part l)); [eauto|].
  destruct (rstrip_sep_split (head_part l)) as (t2 & Hh & _).
  exists (t2 ++ t). rewrite app_assoc, <- Hh. exact Hl.
Qed.

Lemma startswith_sep_nonsep t :
  forallb (fun c => negb (is_sep c)) t = true -> startswith_sep t = false.
Proof.
  destruct t as [|c t]; cbn; [done|].
  intros [Hc _]%andb_prop. by destruct (is_sep c).
Qed.

Lemma startswith_sep_dirname l :
  startswith_sep (dirname_chars l) = startswith_sep l.
Proof.
  destruct (head_part_split l) as (t & Hl & Ht). unfold dirname_chars.
  destruct (forallb is_sep (head_part l)) eqn:Hall.
  - destruct (head_part l) as [|c hd] eqn:Hh.
    + cbn in Hl. subst l. cbn. symmetry. by apply startswith_sep_nonsep.
    + rewrite Hl. reflexivity.
  - destruct (rstrip_sep_split (head_part l)) as (t2 & Hh & Ht2).
    destruct (rstrip_sep (head_part l)) as [|c d] eqn:Hd.
    + cbn in Hh. rewrite Hh in Hall. congruence.
    + rewrite Hl, Hh. reflexivity.
Qed.

Lemma startswith_sep_join d :
  startswith_sep (join_chars d sample_pptx) = startswith_sep d.
Proof.
  unfold join_chars. change (startswith_sep sample_pptx) with false. cbv iota.
  destruct d as [|c d]; [reflexivity|].
  destruct (endswith_sep (c :: d)); reflexivity.
Qed.

Lemma dirname_chars_nosep l :
  forallb (fun c => negb (is_sep c)) l = true -> dirname_chars l = [].
Proof.
  intros Hl. unfold dirname_chars, head_part.
  apply forallb_rev_true in Hl.
  destruct (dropwhile_split (fun c => negb (is_sep c)) (rev l)) as (t & Ht & _).
  assert (Hd : dropwhile (fun c => negb (is_sep c)) (rev l) = []).
  { pose proof (dropwhile_head (fun c => negb (is_sep c)) (rev l)) as Hhd.
    destruct (dropwhile _ (rev l)) as [|c r]; [done|].
    rewrite forallb_forall in Hl. rewrite Hl in Hhd; [done|].
    rewrite Ht. apply in_or_app. right. by left. }
  by rewrite Hd.
Qed.

Lemma In_join_chars c d :
  In c (join_chars d sample_pptx) -> In c d \/ c = sep \/ In c sample_pptx.
Proof.
  unfold join_chars. change (startswith_sep sample_pptx) with false. cbv iota.
  destruct d as [|c0 d]; [auto|].
  destruct (endswith_sep (c0 :: d)); intros [H|H]%in_app_or; auto.
  destruct H as [<-|H]; auto.
Qed.

Lemma list_ascii_of_string_append a b :
  list_ascii_of_string (a +:+ b)
  = list_ascii_of_string a ++ list_ascii_of_string b.
Proof.
  induction a as [|c a IH]; [done|].
  change (String c a +:+ b) with (String c (a +:+ b)).
  cbn [list_ascii_of_string app]. by rewrite IH.
Qed.

(** A script path without line feed gives a success line without one. *)
Lemma success_message_no_lf env :
  ~ In LF (list_ascii_of_string (file__ env)) ->
  ~ In LF (list_ascii_of_string (success_message (output_path env))).
Proof.
  intros Hlf. unfold success_message. rewrite list_ascii_of_string_append.
  intros [Hin|Hin]%in_app_or.
  - vm_compute in Hin.
    repeat (destruct Hin as [Hin|Hin]; [discriminate|]). destruct Hin.
  - unfold output_path, join, dirname in Hin.
    rewrite !list_ascii_of_string_of_list_ascii in Hin.
    change (list_ascii_of_string "sample.pptx") with sample_pptx in Hin.
    apply In_join_chars in Hin as [Hin|[Hin|Hin]].
    + apply Hlf.
      destruct (dirname_chars_prefix (list_ascii_of_string (file__ env)))
        as (t & Ht).
      rewrite Ht. apply in_or_app. by left.
    + discriminate.
    + vm_compute in Hin.
      repeat (destruct Hin as [Hin|Hin]; [discriminate|]). destruct Hin.
Qed.

Lemma count_lf_append a b : count_lf (a +:+ b) = count_lf a + count_lf b.
Proof.
  induction a as [|c a IH]; [done|].
  change (String c a +:+ b) with (String c (a +:+ b)).
  cbn [count_lf]. rewrite IH. lia.
Qed.

Lemma count_lf_no_lf s :
  ~ In LF (list_ascii_of_string s) -> count_lf s = 0.
Proof.
  induction s as [|c s IH]; [done|]. cbn [list_ascii_of_string count_lf].
  intros Hin. destruct (Ascii.eqb_spec c LF) as [->|_].
  - destruct Hin. by left.
  - apply IH. intros H. apply Hin. by right.
Qed.

End MorePathFacts.

(* ===================================================================== *)
(** ** The claims                                                         *)
(* ===================================================================== *)

(** C1. A run that ends normally leaves at the output path a deck with
    exactly two slides. The first was made from slide layout 0 of the
    deck and the second from slide layout 1, in that order, and each holds
    the placeholders its layout hands on to a new slide. *)
Theorem C1_two_slides_from_layouts_0_and_1 env w w' :
  generate env w = (Ok tt, w') ->
  exists d s1 s2 l0 l1,
    fs w' !! output_path env = Some (Pptx d)
    /\ load_default_template env = inr (slide_layouts d)
    /\ slides d = [s1; s2]
    /\ slide_layout s1 = 0 /\ slide_layouts d !! 0 = Some l0
    /\ ph_key <$> shapes s1 = ph_key <$> clone_layout_placeholders l0
    /\ slide_layout s2 = 1 /\ slide_layouts d !! 1 = Some l1
    /\ ph_key <$> shapes s2 = ph_key <$> clone_layout_placeholders l1.
Proof.
  intros (ls & d & Hload & Hd & _ & ->)%generate_Ok.
  apply deck_of_layouts_Ok in Hd
    as (l0 & l1 & i0 & j0 & i1 & j1 & Hl0 & Hl1 & _ & _ & _ & _ & ->).
  exists {| slide_layouts := ls;
            slides := [title_slide l0 i0 j0; content_slide l1 i1 j1] |},
         (title_slide l0 i0 j0), (content_slide l1 i1 j1), l0, l1.
  cbn [saved_world fs slides slide_layouts].
  rewrite lookup_insert_eq.
  repeat split; auto using title_slide_keys, content_slide_keys.
Qed.

Lemma C1_witness :
  generate sample_env empty_world
  = (Ok tt, (generate sample_env empty_world).2)
  /\ exists d s1 s2 l0 l1,
       fs (generate sample_env empty_world).2 !! output_path sample_env
       = Some (Pptx d)
       /\ load_default_template sample_env = inr (slide_layouts d)
       /\ slides d = [s1; s2]
       /\ slide_layout s1 = 0 /\ slide_layouts d !! 0 = Some l0
       /\ ph_key <$> shapes s1 = ph_key <$> clone_layout_placeholders l0
       /\ slide_layout s2 = 1 /\ slide_layouts d !! 1 = Some l1
       /\ ph_key <$> shapes s2 = ph_key <$> clone_layout_placeholders l1.
Proof.
  split; [vm_compute; reflexivity|].
  apply (C1_two_slides_from_layouts_0_and_1 sample_env empty_world).
  vm_compute; reflexivity.
Defined.

(** C2. After a run that ends normally, the title shape of the first
    slide reads "Test Presentation" and its placeholder 1, the subtitle,
    reads "Created by file2ai". *)
Theorem C2_title_slide_texts env w w' :
  generate env w = (Ok tt, w') ->
  exists d s1 t sub,
    fs w' !! output_path env = Some (Pptx d)
    /\ slides d !! 0 = Some s1
    /\ slide_title s1 = Some t
    /\ shape_text t = "Test Presentation"
    /\ slide_placeholder s1 1 = Some sub
    /\ shape_text sub = "Created by file2ai".
Proof.
  intros (ls & d & Hload & Hd & _ & ->)%generate_Ok.
  apply deck_of_layouts_Ok in Hd
    as (l0 & l1 & i0 & j0 & i1 & j1 & Hl0 & Hl1 & Hi0 & Hj0 & _ & _ & ->).
  destruct (title_slide_texts l0 i0 j0 Hi0 Hj0)
    as (t & sub & Ht & _ & Hpt & Hsub & _ & Hpsub).
  eexists _, (title_slide l0 i0 j0), t, sub.
  cbn [saved_world fs]. rewrite lookup_insert_eq.
  unfold shape_text. rewrite Hpt, Hpsub. by repeat split.
Qed.

Lemma C2_witness :
  generate sample_env empty_world
  = (Ok tt, (generate sample_env empty_world).2)
  /\ exists d s1 t sub,
       fs (generate sample_env empty_world).2 !! output_path sample_env
       = Some (Pptx d)
       /\ slides d !! 0 = Some s1
       /\ slide_title s1 = Some t
       /\ shape_text t = "Test Presentation"
       /\ slide_placeholder s1 1 = Some sub
       /\ shape_text sub = "Created by file2ai".
Proof.
  split; [vm_compute; reflexivity|].
  apply (C2_title_slide_texts sample_env empty_world).
  vm_compute; reflexivity.
Defined.

(** C3. After a run that ends normally, the title shape of the second
    slide reads "Sample Content" and its placeholder 1, the body, holds
    exactly three paragraphs: "This is a test slide", "• Bullet point 1"
    and "• Bullet point 2", in this order. The bullet is the first
    character of the paragraph's own text. *)
Theorem C3_content_slide_texts env w w' :
  generate env w = (Ok tt, w') ->
  exists d s2 t body,
    fs w' !! output_path env = Some (Pptx d)
    /\ slides d !! 1 = Some s2
    /\ slide_title s2 = Some t
    /\ shape_text t = "Sample Content"
    /\ slide_placeholder s2 1 = Some body
    /\ paragraphs body =
       ["This is a test slide"; "• Bullet point 1"; "• Bullet point 2"].
Proof.
  intros (ls & d & Hload & Hd & _ & ->)%generate_Ok.
  apply deck_of_layouts_Ok in Hd
    as (l0 & l1 & i0 & j0 & i1 & j1 & Hl0 & Hl1 & _ & _ & Hi1 & Hj1 & ->).
  destruct (content_slide_texts l1 i1 j1 Hi1 Hj1)
    as (t & body & Ht & _ & Hpt & Hbody & _ & Hpbody).
  eexists _, (content_slide l1 i1 j1), t, body.
  cbn [saved_world fs]. rewrite lookup_insert_eq.
  unfold shape_text. rewrite Hpt. by repeat split.
Qed.

Lemma C3_witness :
  generate sample_env empty_world
  = (Ok tt, (generate sample_env empty_world).2)
  /\ exists d s2 t body,
       fs (generate sample_env empty_world).2 !! output_path sample_env
       = Some (Pptx d)
       /\ slides d !! 1 = Some s2
       /\ slide_title s2 = Some t
       /\ shape_text t = "Sample Content"
       /\ slide_placeholder s2 1 = Some body
       /\ paragraphs body =
          ["This is a test slide"; "• Bullet point 1"; "• Bullet point 2"].
Proof.
  split; [vm_compute; reflexivity|].
  apply (C3_content_slide_texts sample_env empty_world).
  vm_compute; reflexivity.
Defined.

(** C4. In every run the path handed to [save] is
    [dirname(__file__)] joined with "sample.pptx": its directory is the
    script's directory and its last component is sample.pptx. It is a
    function of [__file__] alone, so the working directory, the command
    line and the environment variables have no part in it, and the run
    opens no other path for writing. When the run ends normally the deck
    is at that path whatever was there before, and standard output holds
    nothing but the success line: no warning, no question. *)
Theorem C4_output_path env w :
  output_path env = Posixpath.join (Posixpath.dirname (file__ env)) "sample.pptx"
  /\ Posixpath.dirname (output_path env) = Posixpath.dirname (file__ env)
  /\ Posixpath.basename (output_path env) = "sample.pptx"
  /\ (forall env', file__ env' = file__ env -> output_path env' = output_path env)
  /\ (forall p, p ∈ file_writes (events_of w (generate env w).2) ->
                p = output_path env)
  /\ (forall w', generate env w = (Ok tt, w') ->
        (exists d, fs w' !! output_path env = Some (Pptx d))
        /\ stdout w' = stdout w +:+ success_message (output_path env) +:+ newline).
Proof.
  split; [reflexivity|].
  split; [apply dirname_output_path|].
  split; [apply basename_output_path|].
  split; [intros env' Hf; unfold output_path; by rewrite Hf|].
  split.
  - intros p. rewrite generate_events.
    destruct (load_default_template env) as [e|ls]; cbn; [by intros ?%elem_of_nil|].
    destruct (deck_of_layouts ls) as [d|e]; cbn; [|by intros ?%elem_of_nil].
    destruct (fs_write env (output_path env)); [destruct (print_outcome env)|..];
      cbn; by intros ->%list_elem_of_singleton.
  - intros w' (ls & d & _ & _ & _ & ->)%generate_Ok.
    cbn [saved_world fs stdout]. rewrite lookup_insert_eq. eauto.
Qed.

Lemma C4_witness :
  output_path sample_env = "/home/dev/git2txt/sample.pptx"
  /\ fs stale_world !! output_path sample_env = Some (Other "old bytes")
  /\ (exists d, fs (generate sample_env stale_world).2 !! output_path sample_env
                = Some (Pptx d))
  /\ stdout (generate sample_env stale_world).2
     = String.append "Created test presentation at: /home/dev/git2txt/sample.pptx"
         newline.
Proof.
  split; [vm_compute; reflexivity|].
  split; [vm_compute; reflexivity|].
  apply (C4_output_path sample_env stale_world).
  vm_compute; reflexivity.
Defined.

(** C5, as the code has it. A run that ends normally adds to standard
    output exactly the text "Created test presentation at: " followed by
    the output path and one line terminator, by a single print, and that
    print is the last thing the run does: it comes after the write of the
    file, which by then holds the deck. In no run is anything printed
    unless the write succeeded. When the script's path contains no line
    feed, that text is exactly one line: standard output holds one line
    terminator more than before. *)
Theorem C5_success_line env w :
  (forall w', generate env w = (Ok tt, w') ->
     stdout w' = stdout w
                 +:+ ("Created test presentation at: " +:+ output_path env)
                 +:+ newline
     /\ events_of w w'
        = [EvOpenTemplate; EvWriteFile (output_path env);
           EvPrint ("Created test presentation at: " +:+ output_path env)]
     /\ exists d, fs w' !! output_path env = Some (Pptx d))
  /\ (forall s, s ∈ prints (events_of w (generate env w).2) ->
        (generate env w).1 = Ok tt
        /\ fs_write env (output_path env) = WriteOk)
  /\ (~ In LF (list_ascii_of_string (file__ env)) ->
      forall w', generate env w = (Ok tt, w') ->
                 count_lf (stdout w') = count_lf (stdout w) + 1).
Proof.
  split; [|split].
  - intros w' Hrun. pose proof (generate_events env w) as Hev.
    rewrite Hrun in Hev. cbn [snd] in Hev.
    pose proof (generate_Ok_print _ _ _ Hrun) as Hp.
    destruct (generate_Ok _ _ _ Hrun) as (ls & d & Hload & Hd & Hw & ->).
    rewrite Hload, Hd, Hw, Hp in Hev.
    cbn [saved_world fs stdout]. rewrite lookup_insert_eq. eauto.
  - intros s. rewrite generate_events, generate_eq. unfold generate_result.
    destruct (load_default_template env) as [e|ls]; cbn; [by intros ?%elem_of_nil|].
    destruct (deck_of_layouts ls) as [d|e]; cbn; [|by intros ?%elem_of_nil].
    destruct (fs_write env (output_path env)); cbn;
      [|by intros ?%elem_of_nil..].
    destruct (print_outcome env); cbn; [by intros ?%elem_of_nil|done].
  - intros Hlf w' (ls & d & _ & _ & _ & ->)%generate_Ok.
    cbn [saved_world stdout].
    rewrite !count_lf_append, (count_lf_no_lf _ (success_message_no_lf _ Hlf)).
    cbn. lia.
Qed.

Lemma C5_witness :
  ~ In LF (list_ascii_of_string (file__ sample_env))
  /\ generate sample_env empty_world
     = (Ok tt, (generate sample_env empty_world).2)
  /\ stdout (generate sample_env empty_world).2
     = String.append "Created test presentation at: /home/dev/git2txt/sample.pptx"
         newline
  /\ count_lf (stdout (generate sample_env empty_world).2)
     = count_lf (stdout empty_world) + 1.
Proof.
  assert (Hlf : ~ In LF (list_ascii_of_string (file__ sample_env))).
  { intros Hin. vm_compute in Hin.
    repeat (destruct Hin as [Hin|Hin]; [discriminate|]). destruct Hin. }
  split; [exact Hlf|].
  split; [vm_compute; reflexivity|].
  split.
  - apply (proj1 (C5_success_line sample_env empty_world)).
    vm_compute; reflexivity.
  - apply (proj2 (proj2 (C5_success_line sample_env empty_world)) Hlf).
    vm_compute; reflexivity.
Defined.

(** C5 as stated fails: from a directory whose name has a line feed in it
    the run ends normally and standard output, empty before, then holds
    two lines, not one. *)
Lemma C5_counterexample :
  generate lf_env empty_world = (Ok tt, (generate lf_env empty_world).2)
  /\ count_lf (stdout empty_world) = 0
  /\ count_lf (stdout (generate lf_env empty_world).2) = 2.
Proof. repeat split; vm_compute; reflexivity. Qed.

Ltac src_cases :=
  intros [?|[(? & ? & ?)
            |[(? & ? & ? & ? & ? & ? & [?|?])|(? & ? & ? & ? & ? & ?)]]];
  congruence.

(** C6. Whatever exception a step raises is the outcome of the run, the
    same exception and not another, and a run only ever ends with an
    exception that one of its steps raised: nothing is caught, wrapped or
    translated. Such a run ends with a non-zero status, leaves standard
    output as it was, prints nothing, and has tried the write at most once. *)
Theorem C6_failures_propagate env w :
  (forall e, raised_by_step env e <-> (generate env w).1 = Raise e)
  /\ (forall e w', generate env w = (Raise e, w') ->
        exit_status (generate env w).1 <> 0
        /\ stdout w' = stdout w
        /\ prints (events_of w w') = []
        /\ length (file_writes (events_of w w')) <= 1).
Proof.
  split.
  - intros e. rewrite generate_eq. unfold generate_result, raised_by_step.
    destruct (load_default_template env) as [e0|ls] eqn:Hload; cbn [fst].
    { split; [src_cases|]. intros [= ->]. by left. }
    destruct (deck_of_layouts ls) as [d|e0] eqn:Hd; cbn [fst].
    2:{ split; [src_cases|]. intros [= ->]. right; left. eauto. }
    destruct (fs_write env (output_path env)) as [|n|n] eqn:Hw; cbn [fst].
    + destruct (print_outcome env) as [e0|] eqn:Hp; cbn [fst].
      * split; [src_cases|]. intros [= ->]. right; right; right.
        exists ls, d. eauto.
      * split; [src_cases|done].
    + split; [src_cases|]. intros [= <-]. right; right; left.
      exists ls, d, n. eauto.
    + split; [src_cases|]. intros [= <-]. right; right; left.
      exists ls, d, n. eauto.
  - intros e w' Hrun. pose proof (generate_events env w) as Hev.
    rewrite Hrun in *. cbn [fst snd] in *. rewrite Hev. clear Hev.
    rewrite generate_eq in Hrun. unfold generate_result in Hrun.
    destruct (load_default_template env) as [e0|ls].
    { injection Hrun as <- <-. cbn. auto. }
    destruct (deck_of_layouts ls) as [d|e0].
    2:{ injection Hrun as <- <-. cbn. auto. }
    destruct (fs_write env (output_path env));
      [|injection Hrun as <- <-; cbn; auto..].
    destruct (print_outcome env); [|discriminate].
    injection Hrun as <- <-. cbn. auto.
Qed.

Lemma C6_witness :
  generate denied_env empty_world
  = (Raise (OSError 13), (generate denied_env empty_world).2)
  /\ exit_status (generate denied_env empty_world).1 <> 0
  /\ stdout (generate denied_env empty_world).2 = stdout empty_world
  /\ prints (events_of empty_world (generate denied_env empty_world).2) = []
  /\ length (file_writes
               (events_of empty_world (generate denied_env empty_world).2)) <= 1.
Proof.
  split; [vm_compute; reflexivity|].
  apply (proj2 (C6_failures_propagate denied_env empty_world) (OSError 13)).
  vm_compute; reflexivity.
Defined.

(** C7. When a run has ended normally, a second run in the world it left
    ends normally too, builds the same deck and leaves the file system as
    the first run left it: the output file holds the same slides, layouts
    and texts after two runs as after one. *)
Theorem C7_second_run_changes_nothing env w w1 :
  generate env w = (Ok tt, w1) ->
  exists w2 d,
    generate env w1 = (Ok tt, w2)
    /\ fs w1 !! output_path env = Some (Pptx d)
    /\ fs w2 !! output_path env = Some (Pptx d)
    /\ fs w2 = fs w1.
Proof.
  intros Hrun. pose proof (generate_Ok_print _ _ _ Hrun) as Hp.
  destruct (generate_Ok _ _ _ Hrun) as (ls & d & Hload & Hd & Hw & ->).
  exists (saved_world env d (saved_world env d w)), d.
  split.
  { rewrite generate_eq. unfold generate_result. by rewrite Hload, Hd, Hw, Hp. }
  cbn [saved_world fs]. rewrite insert_insert_eq, lookup_insert_eq. done.
Qed.

Lemma C7_witness :
  generate sample_env stale_world
  = (Ok tt, (generate sample_env stale_world).2)
  /\ exists w2 d,
       generate sample_env (generate sample_env stale_world).2 = (Ok tt, w2)
       /\ fs (generate sample_env stale_world).2 !! output_path sample_env
          = Some (Pptx d)
       /\ fs w2 !! output_path sample_env = Some (Pptx d)
       /\ fs w2 = fs (generate sample_env stale_world).2.
Proof.
  split; [vm_compute; reflexivity|].
  apply (C7_second_run_changes_nothing sample_env stale_world).
  vm_compute; reflexivity.
Defined.

(** The template fits exactly when the deck gets built. *)
Lemma template_fits_deck env :
  template_fits env
  <-> exists ls d, load_default_template env = inr ls
                   /\ deck_of_layouts ls = Ok d.
Proof.
  unfold template_fits, layout_fits. split.
  - intros (ls & l0 & l1 & Hload & Hl0 & Hl1 & [[i0 Hi0] [j0 Hj0]]
            & [[i1 Hi1] [j1 Hj1]]).
    exists ls. eexists. split; [done|]. unfold deck_of_layouts.
    by rewrite Hl0, Hj0, Hi0, Hl1, Hj1, Hi1.
  - intros (ls & d & Hload & Hd).
    apply deck_of_layouts_Ok in Hd
      as (l0 & l1 & i0 & j0 & i1 & j1 & Hl0 & Hl1 & Hi0 & Hj0 & Hi1 & Hj1 & _).
    exists ls, l0, l1. rewrite Hi0, Hj0, Hi1, Hj1. repeat split; eauto.
Qed.

(** C8, as the code has it. A run changes no path of the file system
    other than the output path. A run that ends normally has read the
    template, written the deck to the output path once and printed the
    success line once, in this order, and nothing else. A run that fails
    leaves standard output alone, and what it did before depends on the
    step that failed:
    - when the template cannot be loaded or does not fit, the failure
      comes before the save: the run has read the template and opened no
      file for writing, and the file system is as it was;
    - when the write is refused, the run has opened the output path once
      and the file system is as it was; when the write breaks midway, a
      truncated file is at the output path;
    - when the print fails, the deck is at the output path already.
    The one file a run reads is the library's default template, with
    which every run begins. The script reads neither the working
    directory nor the command line nor the environment variables: runs
    that differ in nothing else do the same. *)
Theorem C8_effects_confined env w :
  (forall p, p <> output_path env -> fs (generate env w).2 !! p = fs w !! p)
  /\ ((generate env w).1 = Ok tt ->
        (exists d, fs (generate env w).2 = <[output_path env := Pptx d]> (fs w))
        /\ stdout (generate env w).2
           = stdout w +:+ success_message (output_path env) +:+ newline
        /\ events_of w (generate env w).2
           = [EvOpenTemplate; EvWriteFile (output_path env);
              EvPrint (success_message (output_path env))])
  /\ ((generate env w).1 <> Ok tt -> stdout (generate env w).2 = stdout w)
  /\ (~ template_fits env ->
        (generate env w).1 <> Ok tt
        /\ fs (generate env w).2 = fs w
        /\ events_of w (generate env w).2 = [EvOpenTemplate])
  /\ (template_fits env ->
      forall n, fs_write env (output_path env) = WriteDenied n ->
        (generate env w).1 = Raise (OSError n)
        /\ fs (generate env w).2 = fs w
        /\ events_of w (generate env w).2
           = [EvOpenTemplate; EvWriteFile (output_path env)])
  /\ (template_fits env ->
      forall n, fs_write env (output_path env) = WriteBroken n ->
        (generate env w).1 = Raise (OSError n)
        /\ fs (generate env w).2 = <[output_path env := Truncated]> (fs w)
        /\ events_of w (generate env w).2
           = [EvOpenTemplate; EvWriteFile (output_path env)])
  /\ (template_fits env ->
      fs_write env (output_path env) = WriteOk ->
      forall e, print_outcome env = Some e ->
        (generate env w).1 = Raise e
        /\ (exists d, fs (generate env w).2
                      = <[output_path env := Pptx d]> (fs w))
        /\ events_of w (generate env w).2
           = [EvOpenTemplate; EvWriteFile (output_path env)])
  /\ (forall env',
        file__ env' = file__ env ->
        load_default_template env' = load_default_template env ->
        (forall p, fs_write env' p = fs_write env p) ->
        (forall t, stdout_write env' t = stdout_write env t) ->
        generate env' w = generate env w).
Proof.
  split; [intros p Hp; by apply generate_frame|].
  split; [|split; [|split; [|split; [|split; [|split]]]]].
  - rewrite generate_events, generate_eq. unfold generate_result.
    destruct (load_default_template env) as [e|ls]; [discriminate|].
    destruct (deck_of_layouts ls) as [d|e]; [|discriminate].
    destruct (fs_write env (output_path env)); [|discriminate..].
    destruct (print_outcome env); [discriminate|].
    intros _. cbn [snd saved_world fs stdout]. eauto.
  - rewrite generate_eq. unfold generate_result.
    destruct (load_default_template env) as [e|ls]; [done|].
    destruct (deck_of_layouts ls) as [d|e]; [|done].
    destruct (fs_write env (output_path env)); [|done..].
    by destruct (print_outcome env).
  - intros Hfit. rewrite template_fits_deck in Hfit.
    rewrite generate_events, generate_eq. unfold generate_result.
    destruct (load_default_template env) as [e|ls]; [done|].
    destruct (deck_of_layouts ls) as [d|e] eqn:Hd; [|done].
    destruct Hfit. eauto.
  - intros (ls & d & Hload & Hd)%template_fits_deck n Hw.
    rewrite generate_events, generate_eq. unfold generate_result.
    by rewrite Hload, Hd, Hw.
  - intros (ls & d & Hload & Hd)%template_fits_deck n Hw.
    rewrite generate_events, generate_eq. unfold generate_result.
    by rewrite Hload, Hd, Hw.
  - intros (ls & d & Hload & Hd)%template_fits_deck Hw e Hp.
    rewrite generate_events, generate_eq. unfold generate_result.
    rewrite Hload, Hd, Hw, Hp. cbn [fst snd written_world fs]. eauto.
  - intros env' Hfile Hload Hfs Hout.
    assert (Hpath : output_path env' = output_path env)
      by (unfold output_path; by rewrite Hfile).
    rewrite !generate_eq. unfold generate_result, saved_world, written_world,
      print_outcome.
    by rewrite Hload, !Hpath, Hfs, Hout.
Qed.

Lemma C8_witness :
  ((generate sample_env stale_world).1 = Ok tt
   /\ (exists d, fs (generate sample_env stale_world).2
                 = <[output_path sample_env := Pptx d]> (fs stale_world))
   /\ stdout (generate sample_env stale_world).2
      = stdout stale_world +:+ success_message (output_path sample_env)
        +:+ newline
   /\ events_of stale_world (generate sample_env stale_world).2
      = [EvOpenTemplate; EvWriteFile (output_path sample_env);
         EvPrint (success_message (output_path sample_env))])
  /\ (~ template_fits no_template_env
      /\ (generate no_template_env stale_world).1 <> Ok tt
      /\ fs (generate no_template_env stale_world).2 = fs stale_world
      /\ events_of stale_world (generate no_template_env stale_world).2
         = [EvOpenTemplate])
  /\ (template_fits ascii_stdout_env
      /\ print_outcome ascii_stdout_env = Some UnicodeEncodeError
      /\ (generate ascii_stdout_env empty_world).1 = Raise UnicodeEncodeError
      /\ (exists d, fs (generate ascii_stdout_env empty_world).2
                    = <[output_path ascii_stdout_env := Pptx d]> (fs empty_world))
      /\ events_of empty_world (generate ascii_stdout_env empty_world).2
         = [EvOpenTemplate; EvWriteFile (output_path ascii_stdout_env)]).
Proof.
  split; [|split].
  - split; [vm_compute; reflexivity|].
    apply (proj1 (proj2 (C8_effects_confined sample_env stale_world))).
    vm_compute; reflexivity.
  - assert (Hno : ~ template_fits no_template_env).
    { intros (ls & l0 & l1 & Hload & _). discriminate Hload. }
    split; [exact Hno|].
    apply (proj1 (proj2 (proj2 (proj2
             (C8_effects_confined no_template_env stale_world)))) Hno).
  - assert (Hfit : template_fits ascii_stdout_env).
    { exists default_layouts, title_layout, content_layout.
      repeat split; vm_compute; eauto. }
    split; [exact Hfit|]. split; [reflexivity|].
    apply (proj1 (proj2 (proj2 (proj2 (proj2 (proj2 (proj2
             (C8_effects_confined ascii_stdout_env empty_world)))))))
             Hfit eq_refl UnicodeEncodeError eq_refl).
Defined.

(** C8 as stated fails: in a directory that refuses the write the run
    writes no file at all, there is nothing at the output path when it is
    over, and before that it has read a file that is not the output file,
    the template. *)
Lemma C8_counterexample :
  fs (generate denied_env empty_world).2 = fs empty_world
  /\ fs (generate denied_env empty_world).2 !! output_path denied_env = None
  /\ EvOpenTemplate ∈ events_of empty_world (generate denied_env empty_world).2.
Proof.
  split; [vm_compute; reflexivity|].
  split; [vm_compute; reflexivity|].
  rewrite generate_events. cbn. apply list_elem_of_here.
Qed.

(** C9. When the default template has at least two slide layouts and the
    slides made from layouts 0 and 1 each have a title shape and a
    placeholder with idx 1, then [slide_layouts[0]] and [slide_layouts[1]]
    are in range, the lookups of the title and of placeholder 1 find a
    shape on both slides, the deck gets built, and no run ends with an
    IndexError, a KeyError or an AttributeError: a run ends normally, or
    with the error of the write, or with the error of the print. *)
Theorem C9_lookups_in_bounds env ls :
  load_default_template env = inr ls ->
  2 <= length ls ->
  (forall i l, i < 2 -> ls !! i = Some l -> layout_fits l) ->
  (exists l0 l1 i0 j0 i1 j1,
     ls !! 0 = Some l0 /\ ls !! 1 = Some l1
     /\ find_ph 0 (clone_layout_placeholders l0) = Some i0
     /\ find_ph 1 (clone_layout_placeholders l0) = Some j0
     /\ find_ph 0 (clone_layout_placeholders l1) = Some i1
     /\ find_ph 1 (clone_layout_placeholders l1) = Some j1
     /\ deck_of_layouts ls
        = Ok {| slide_layouts := ls;
                slides := [title_slide l0 i0 j0; content_slide l1 i1 j1] |})
  /\ (forall w, (generate env w).1 = Ok tt
                \/ (exists n, (generate env w).1 = Raise (OSError n))
                \/ (generate env w).1 = Raise UnicodeEncodeError
                \/ (generate env w).1 = Raise ValueError).
Proof.
  intros Hload Hlen Hfit.
  destruct (lookup_lt_is_Some_2 ls 0) as [l0 Hl0]; [lia|].
  destruct (lookup_lt_is_Some_2 ls 1) as [l1 Hl1]; [lia|].
  destruct (Hfit 0 l0) as [[i0 Hi0] [j0 Hj0]]; [lia|done|].
  destruct (Hfit 1 l1) as [[i1 Hi1] [j1 Hj1]]; [lia|done|].
  assert (Hd : deck_of_layouts ls
               = Ok {| slide_layouts := ls;
                       slides := [title_slide l0 i0 j0; content_slide l1 i1 j1] |}).
  { unfold deck_of_layouts. by rewrite Hl0, Hj0, Hi0, Hl1, Hj1, Hi1. }
  split; [by exists l0, l1, i0, j0, i1, j1|].
  intros w. rewrite generate_eq. unfold generate_result. rewrite Hload, Hd.
  destruct (fs_write env (output_path env)); cbn [fst]; eauto.
  destruct (print_outcome env) as [e|] eqn:Hp; cbn [fst]; [|by left].
  destruct (print_outcome_Some _ _ Hp) as [[n ->]|[->| ->]]; eauto.
Qed.

Lemma C9_witness :
  load_default_template denied_env = inr default_layouts
  /\ 2 <= length default_layouts
  /\ (forall w, (generate denied_env w).1 = Ok tt
                \/ (exists n, (generate denied_env w).1 = Raise (OSError n))
                \/ (generate denied_env w).1 = Raise UnicodeEncodeError
                \/ (generate denied_env w).1 = Raise ValueError).
Proof.
  split; [reflexivity|]. split; [vm_compute; lia|].
  apply (C9_lookups_in_bounds denied_env default_layouts).
  - reflexivity.
  - vm_compute; lia.
  - intros [|[|i]] l Hi; [| |lia]; intros [= <-]; split; vm_compute; eauto.
Defined.

(** C10. Executed under any module name other than "__main__", as an
    import does, the file ends normally and leaves the world as it was: no
    file, no output, no event. Executed as "__main__" it does what one call
    of the generator does, neither less nor more. *)
Theorem C10_main_guard env w :
  (name__ env <> "__main__" -> run_module env w = (Ok tt, w))
  /\ (name__ env = "__main__" -> run_module env w = generate env w).
Proof.
  unfold run_module, generate, module_body.
  destruct (String.eqb_spec (name__ env) "__main__") as [Hmain|Hother].
  - split; [done|]. reflexivity.
  - split; [|done]. intros _. unfold run, ret. cbn. by destruct w.
Qed.

Lemma C10_witness :
  (name__ imported_env <> "__main__"
   /\ run_module imported_env stale_world = (Ok tt, stale_world))
  /\ (name__ sample_env = "__main__"
      /\ run_module sample_env stale_world = generate sample_env stale_world).
Proof.
  split.
  - split; [discriminate|].
    apply (proj1 (C10_main_guard imported_env stale_world)). discriminate.
  - split; [reflexivity|].
    apply (proj2 (C10_main_guard sample_env stale_world)). reflexivity.
Defined.


(* ===================================================================== *)
(** ** The function called in a process that already holds objects        *)
(* ===================================================================== *)

Lemma heap_last_lookup (h : list Presentation) p :
  (h ++ [p]) !! length h = Some p.
Proof. by apply list_lookup_middle. Qed.

Lemma heap_last_alter (f : Presentation -> Presentation) h p :
  alter f (length h) (h ++ [p]) = h ++ [f p].
Proof.
  replace (length h) with (length h + 0) by lia.
  by rewrite alter_app_r.
Qed.

Lemma deref_prs_at h p w :
  deref_prs (length h) (st (h ++ [p]) w) = (Ok p, st (h ++ [p]) w).
Proof.
  unfold deref_prs. rewrite bind_eq. unfold get_heap. cbn [st heap].
  by rewrite heap_last_lookup.
Qed.

Lemma new_Presentation_at env h w :
  new_Presentation env (st h w) =
  match load_default_template env with
  | inl e => (Raise e, st h (log_event EvOpenTemplate w))
  | inr ls => (Ok (length h),
               st (h ++ [{| slide_layouts := ls; slides := [] |}])
                  (log_event EvOpenTemplate w))
  end.
Proof.
  unfold new_Presentation. rewrite bind_eq.
  destruct (load_default_template env); reflexivity.
Qed.

Lemma slide_layouts_getitem_at h p w i :
  slide_layouts_getitem (length h) i (st (h ++ [p]) w) =
  match slide_layouts p !! i with
  | Some _ => (Ok {| lr_prs := length h; lr_idx := i |}, st (h ++ [p]) w)
  | None => (Raise IndexError, st (h ++ [p]) w)
  end.
Proof.
  unfold slide_layouts_getitem. rewrite bind_eq, deref_prs_at.
  destruct (slide_layouts p !! i); reflexivity.
Qed.

Lemma add_slide_at h p w i l :
  slide_layouts p !! i = Some l ->
  add_slide (length h) {| lr_prs := length h; lr_idx := i |} (st (h ++ [p]) w) =
  (Ok {| sr_prs := length h; sr_idx := length (slides p) |},
   st (h ++ [with_slides
               (fun ss => ss ++ [{| slide_layout := i;
                                    shapes := clone_layout_placeholders l |}]) p])
      w).
Proof.
  intros Hl. unfold add_slide. rewrite bind_eq, deref_prs_at.
  cbn [lr_idx]. rewrite Hl, bind_eq. unfold modify_heap. cbn [st heap world].
  by rewrite heap_last_alter.
Qed.

Lemma deref_slide_at h p w n s :
  slides p !! n = Some s ->
  deref_slide {| sr_prs := length h; sr_idx := n |} (st (h ++ [p]) w)
  = (Ok s, st (h ++ [p]) w).
Proof.
  intros Hs. unfold deref_slide. rewrite bind_eq. cbn [sr_prs sr_idx].
  by rewrite deref_prs_at, Hs.
Qed.

Lemma shapes_title_at h p w n s :
  slides p !! n = Some s ->
  shapes_title {| sr_prs := length h; sr_idx := n |} (st (h ++ [p]) w) =
  (Ok ((fun i => {| shr_slide := {| sr_prs := length h; sr_idx := n |};
                    shr_pos := i |})
         <$> find_ph 0 (shapes s)), st (h ++ [p]) w).
Proof.
  intros Hs. unfold shapes_title. rewrite bind_eq.
  by rewrite (deref_slide_at _ _ _ _ _ Hs).
Qed.

Lemma placeholders_getitem_at h p w n s k :
  slides p !! n = Some s ->
  placeholders_getitem {| sr_prs := length h; sr_idx := n |} k (st (h ++ [p]) w) =
  match find_ph k (shapes s) with
  | Some i => (Ok {| shr_slide := {| sr_prs := length h; sr_idx := n |};
                     shr_pos := i |}, st (h ++ [p]) w)
  | None => (Raise KeyError, st (h ++ [p]) w)
  end.
Proof.
  intros Hs. unfold placeholders_getitem. rewrite bind_eq.
  rewrite (deref_slide_at _ _ _ _ _ Hs).
  destruct (find_ph k (shapes s)); reflexivity.
Qed.

Lemma update_shape_at h p w n i f :
  update_shape {| shr_slide := {| sr_prs := length h; sr_idx := n |};
                  shr_pos := i |} f (st (h ++ [p]) w)
  = (Ok tt, st (h ++ [upd n i f p]) w).
Proof.
  unfold update_shape, update_slide, modify_heap.
  cbn [shr_slide shr_pos sr_prs sr_idx st heap world].
  by rewrite heap_last_alter.
Qed.

Lemma shape_set_text_at h p w n i txt :
  shape_set_text
    (Some {| shr_slide := {| sr_prs := length h; sr_idx := n |}; shr_pos := i |})
    txt (st (h ++ [p]) w) =
  (Ok tt, st (h ++ [upd n i (with_paragraphs (fun _ => split_lf txt)) p]) w).
Proof.
  unfold shape_set_text. rewrite bind_eq. cbn [text_frame ret].
  unfold text_frame_set_text. cbn [tf_shape]. apply update_shape_at.
Qed.

Lemma text_frame_set_text_at h p w n i txt :
  text_frame_set_text
    {| tf_shape := {| shr_slide := {| sr_prs := length h; sr_idx := n |};
                      shr_pos := i |} |} txt (st (h ++ [p]) w) =
  (Ok tt, st (h ++ [upd n i (with_paragraphs (fun _ => split_lf txt)) p]) w).
Proof. unfold text_frame_set_text. cbn [tf_shape]. apply update_shape_at. Qed.

Lemma add_paragraph_at h p w n i s sh :
  slides p !! n = Some s -> shapes s !! i = Some sh ->
  add_paragraph
    {| tf_shape := {| shr_slide := {| sr_prs := length h; sr_idx := n |};
                      shr_pos := i |} |} (st (h ++ [p]) w) =
  (Ok {| pr_frame := {| tf_shape :=
            {| shr_slide := {| sr_prs := length h; sr_idx := n |};
               shr_pos := i |} |};
         pr_pos := length (paragraphs sh) |},
   st (h ++ [upd n i (with_paragraphs (fun ps => ps ++ [EmptyString])) p]) w).
Proof.
  intros Hs Hsh. unfold add_paragraph. rewrite bind_eq.
  cbn [tf_shape shr_slide shr_pos].
  rewrite (deref_slide_at _ _ _ _ _ Hs), Hsh, bind_eq.
  by rewrite update_shape_at.
Qed.

Lemma paragraph_set_text_at h p w n i k txt :
  paragraph_set_text
    {| pr_frame := {| tf_shape :=
         {| shr_slide := {| sr_prs := length h; sr_idx := n |}; shr_pos := i |} |};
       pr_pos := k |} txt (st (h ++ [p]) w) =
  (Ok tt,
   st (h ++ [upd n i (with_paragraphs (fun ps => <[k := lf_to_vt txt]> ps)) p]) w).
Proof.
  unfold paragraph_set_text. cbn [pr_frame tf_shape pr_pos].
  apply update_shape_at.
Qed.

Lemma save_at env h p w path :
  save env (length h) path (st (h ++ [p]) w) =
  match fs_write env path with
  | WriteOk =>
      (Ok tt, st (h ++ [p])
                 {| fs := <[path := Pptx p]> (fs w); stdout := stdout w;
                    trace := trace w ++ [EvWriteFile path] |})
  | WriteDenied n =>
      (Raise (OSError n), st (h ++ [p]) (log_event (EvWriteFile path) w))
  | WriteBroken n =>
      (Raise (OSError n),
       st (h ++ [p]) {| fs := <[path := Truncated]> (fs w); stdout := stdout w;
                        trace := trace w ++ [EvWriteFile path] |})
  end.
Proof.
  unfold save. rewrite bind_eq, deref_prs_at, bind_eq.
  change (log (EvWriteFile path) (st (h ++ [p]) w))
    with (Ok tt, st (h ++ [p]) (log_event (EvWriteFile path) w)).
  cbv beta iota.
  destruct (fs_write env path); reflexivity.
Qed.

Ltac step_in H lem := rewrite bind_eq in H; rewrite lem in H; cbv beta iota in H.
Ltac step_with_in H lem :=
  rewrite bind_eq in H;
  erewrite lem in H by first [eassumption | reflexivity];
  cbv beta iota in H.

Ltac one_new := eexists; split; [reflexivity | cbn; lia].

Lemma create_test_presentation_at env h w o s' :
  create_test_presentation env (st h w) = (o, s') ->
  (o, world s') = generate_result env w
  /\ (exists new, heap s' = h ++ new /\ length new <= 1)
  /\ (o = Ok tt ->
      exists ls d, load_default_template env = inr ls
                   /\ deck_of_layouts ls = Ok d /\ heap s' = h ++ [d]).
Proof.
  unfold create_test_presentation, generate_result. intros Hrun.
  step_in Hrun new_Presentation_at.
  destruct (load_default_template env) as [e|ls].
  { injection Hrun as <- <-. split; [done|]. split; [|done].
    exists []. split; [by rewrite app_nil_r | cbn; lia]. }
  unfold deck_of_layouts.
  (* the title slide *)
  step_in Hrun slide_layouts_getitem_at. cbn [slide_layouts] in Hrun.
  destruct (ls !! 0) as [l0|] eqn:Hl0.
  2:{ injection Hrun as <- <-. split; [done|]. split; [one_new|done]. }
  step_with_in Hrun add_slide_at. cbn [slides length] in Hrun.
  step_with_in Hrun shapes_title_at.
  step_with_in Hrun placeholders_getitem_at. cbn [shapes] in Hrun.
  destruct (find_ph 1 (clone_layout_placeholders l0)) as [j0|] eqn:Hj0.
  2:{ injection Hrun as <- <-. split; [done|]. split; [one_new|done]. }
  destruct (find_ph 0 (clone_layout_placeholders l0)) as [i0|] eqn:Hi0;
    cbn [fmap option_fmap option_map] in Hrun.
  2:{ injection Hrun as <- <-. split; [done|]. split; [one_new|done]. }
  step_in Hrun shape_set_text_at.
  step_in Hrun shape_set_text_at.
  match type of Hrun with
  | context [st (h ++ [?p]) _] =>
      change p with {| slide_layouts := ls; slides := [title_slide l0 i0 j0] |}
        in Hrun
  end.
  (* the content slide *)
  step_in Hrun slide_layouts_getitem_at. cbn [slide_layouts] in Hrun.
  destruct (ls !! 1) as [l1|] eqn:Hl1.
  2:{ injection Hrun as <- <-. split; [done|]. split; [one_new|done]. }
  step_with_in Hrun add_slide_at. cbn [slides length] in Hrun.
  step_with_in Hrun shapes_title_at.
  step_with_in Hrun placeholders_getitem_at. cbn [shapes] in Hrun.
  destruct (find_ph 1 (clone_layout_placeholders l1)) as [j1|] eqn:Hj1.
  2:{ injection Hrun as <- <-. split; [done|]. split; [one_new|done]. }
  destruct (find_ph 0 (clone_layout_placeholders l1)) as [i1|] eqn:Hi1;
    cbn [fmap option_fmap option_map] in Hrun.
  2:{ injection Hrun as <- <-. split; [done|]. split; [one_new|done]. }
  assert (Hne : i1 <> j1) by (eapply find_ph_distinct; eauto).
  destruct (find_ph_Some _ _ _ Hj1) as (shb & Hshb & _).
  step_in Hrun shape_set_text_at.
  rewrite bind_eq in Hrun. cbn [text_frame ret] in Hrun. cbv beta iota in Hrun.
  step_in Hrun text_frame_set_text_at.
  set (S0 := with_paragraphs (fun _ => split_lf "Sample Content")) in *.
  set (T0 := with_paragraphs (fun _ => split_lf "This is a test slide")) in *.
  set (A0 := with_paragraphs (fun ps => ps ++ [EmptyString])).
  set (base := clone_layout_placeholders l1) in *.
  assert (H1 : alter T0 j1 (alter S0 i1 base) !! j1 = Some (T0 shb)).
  { rewrite list_lookup_alter_eq, list_lookup_alter_ne, Hshb by done. done. }
  rewrite bind_eq in Hrun.
  erewrite add_paragraph_at in Hrun; [|reflexivity|exact H1].
  cbv beta iota in Hrun.
  step_in Hrun paragraph_set_text_at.
  set (P1 := with_paragraphs
               (fun ps => <[length (paragraphs (T0 shb)) :=
                            lf_to_vt "• Bullet point 1"]> ps)) in *.
  assert (H2 : alter P1 j1 (alter A0 j1 (alter T0 j1 (alter S0 i1 base))) !! j1
               = Some (P1 (A0 (T0 shb)))).
  { rewrite 2!list_lookup_alter_eq, H1. done. }
  rewrite bind_eq in Hrun.
  erewrite add_paragraph_at in Hrun; [|reflexivity|exact H2].
  cbv beta iota in Hrun.
  step_in Hrun paragraph_set_text_at.
  step_in Hrun save_at.
  match type of Hrun with
  | context [st (h ++ [?p]) _] =>
      change p with {| slide_layouts := ls;
                       slides := [title_slide l0 i0 j0; content_slide l1 i1 j1] |}
        in Hrun
  end.
  destruct (fs_write env (output_path env)).
  - rewrite print_eq in Hrun. unfold print_outcome.
    destruct (stdout_write env (success_message (output_path env)));
      injection Hrun as <- <-.
    + split.
      { unfold saved_world, log_event. cbn [fs stdout trace world st].
        by rewrite <- !app_assoc. }
      split; [one_new|]. intros _. exists ls. eexists.
      split; [done|]. split; [|reflexivity].
      subst base. by rewrite Hl0, Hj0, Hi0, Hl1, Hj1, Hi1.
    + split; [|split; [one_new|done]].
      unfold written_world, log_event. cbn [fs stdout trace world st].
      by rewrite <- !app_assoc.
    + split; [|split; [one_new|done]].
      unfold written_world, log_event. cbn [fs stdout trace world st].
      by rewrite <- !app_assoc.
    + split; [|split; [one_new|done]].
      unfold written_world, log_event. cbn [fs stdout trace world st].
      by rewrite <- !app_assoc.
  - injection Hrun as <- <-.
    split.
    { unfold log_event. cbn [fs stdout trace world st]. by rewrite <- !app_assoc. }
    split; [one_new|done].
  - injection Hrun as <- <-.
    split.
    { unfold log_event. cbn [fs stdout trace world st]. by rewrite <- !app_assoc. }
    split; [one_new|done].
Qed.


(* ===================================================================== *)
(** ** Further properties of the script                                   *)
(* ===================================================================== *)

Lemma other_shapes_kept (base : list Shape) i j n sh f g :
  find_ph 0 base = Some i -> find_ph 1 base = Some j ->
  base !! n = Some sh -> ph_idx sh <> 0 -> ph_idx sh <> 1 ->
  alter f j (alter g i base) !! n = Some sh
  /\ n <> i /\ n <> j.
Proof.
  intros Hi Hj Hn H0 H1.
  destruct (find_ph_Some _ _ _ Hi) as (shi & Hshi & Hidxi).
  destruct (find_ph_Some _ _ _ Hj) as (shj & Hshj & Hidxj).
  assert (n <> i) by congruence. assert (n <> j) by congruence.
  by rewrite !list_lookup_alter_ne.
Qed.

(** X1. Called in any state of a process, whatever objects its heap
    already holds, the function ends with the outcome and leaves the
    world that a run in a fresh process gives. It leaves every object
    that was in the heap before the call as it was and adds at most one
    object, and when it ends normally it adds exactly the deck it saved,
    which has two slides. *)
Theorem X1_call_keeps_the_heap env s o s' :
  create_test_presentation env s = (o, s') ->
  (o, world s') = generate env (world s)
  /\ (exists new, heap s' = heap s ++ new /\ length new <= 1)
  /\ (o = Ok tt ->
      exists d, heap s' = heap s ++ [d]
                /\ fs (world s') !! output_path env = Some (Pptx d)
                /\ length (slides d) = 2).
Proof.
  destruct s as [h w]. change {| heap := h; world := w |} with (st h w).
  intros (Hres & Hnew & Hok)%create_test_presentation_at.
  cbn [st heap world]. rewrite generate_eq.
  split; [exact Hres|]. split; [exact Hnew|].
  intros ->. destruct (Hok eq_refl) as (ls & d & Hload & Hd & Hheap).
  exists d. split; [exact Hheap|].
  unfold generate_result in Hres. rewrite Hload, Hd in Hres.
  destruct (fs_write env (output_path env)); [|discriminate..].
  destruct (print_outcome env); [discriminate|].
  injection Hres as ->. cbn [saved_world fs]. rewrite lookup_insert_eq.
  split; [done|].
  apply deck_of_layouts_Ok in Hd as (? & ? & ? & ? & ? & ? & _ & _ & _ & _ & _ & _ & ->).
  reflexivity.
Qed.

Lemma X1_witness :
  create_test_presentation sample_env busy_state
  = (Ok tt, (create_test_presentation sample_env busy_state).2)
  /\ (exists new,
        heap (create_test_presentation sample_env busy_state).2
        = heap busy_state ++ new /\ length new <= 1).
Proof.
  split; [vm_compute; reflexivity|].
  apply (X1_call_keeps_the_heap sample_env busy_state (Ok tt)).
  vm_compute; reflexivity.
Defined.



(** X3. When the template cannot be loaded or does not fit, the run
    fails before the save: it has opened no file for writing, the file
    system and standard output are as before, so a sample.pptx that was
    there is still there, and the only thing the run did is read the
    template. Put the other way round, a run that opened a file for
    writing had a template that fits. *)
Theorem X3_no_write_before_the_deck_is_built env w :
  (~ template_fits env ->
   (exists e, (generate env w).1 = Raise e)
   /\ fs (generate env w).2 = fs w
   /\ stdout (generate env w).2 = stdout w
   /\ events_of w (generate env w).2 = [EvOpenTemplate])
  /\ (forall p, p ∈ file_writes (events_of w (generate env w).2) ->
                template_fits env).
Proof.
  rewrite generate_events, generate_eq. unfold generate_result.
  destruct (load_default_template env) as [e|ls] eqn:Hload.
  { split; [intros _; cbn; eauto|]. cbn. by intros p ?%elem_of_nil. }
  destruct (deck_of_layouts ls) as [d|e] eqn:Hd.
  { assert (Hfit : template_fits env)
      by (apply template_fits_deck; by exists ls, d).
    split; [by intros []|done]. }
  split; [intros _; cbn; eauto|]. cbn. by intros p ?%elem_of_nil.
Qed.

Lemma X3_witness :
  ~ template_fits blank_first_env
  /\ (exists e, (generate blank_first_env stale_world).1 = Raise e)
  /\ fs (generate blank_first_env stale_world).2 = fs stale_world
  /\ stdout (generate blank_first_env stale_world).2 = stdout stale_world
  /\ events_of stale_world (generate blank_first_env stale_world).2
     = [EvOpenTemplate].
Proof.
  assert (Hno : ~ template_fits blank_first_env).
  { intros (ls & l0 & l1 & Hload & Hl0 & _ & [_ [j Hj]] & _).
    injection Hload as <-. injection Hl0 as <-. discriminate Hj. }
  split; [exact Hno|].
  apply (proj1 (X3_no_write_before_the_deck_is_built blank_first_env stale_world)
           Hno).
Defined.

(** X4. Which exception a first layout that does not fit gives: when the
    title slide has no placeholder with idx 1 the run ends with a
    KeyError, also when the slide has no title either, because
    [slide.placeholders[1]] is evaluated before the title is used; when
    only the title is missing it ends with an AttributeError; and when the
    first layout fits but there is no second layout it ends with an
    IndexError. *)
Theorem X4_which_lookup_fails env w ls l0 :
  load_default_template env = inr ls ->
  ls !! 0 = Some l0 ->
  (find_ph 1 (clone_layout_placeholders l0) = None ->
   (generate env w).1 = Raise KeyError)
  /\ (is_Some (find_ph 1 (clone_layout_placeholders l0)) ->
      find_ph 0 (clone_layout_placeholders l0) = None ->
      (generate env w).1 = Raise AttributeError)
  /\ (layout_fits l0 -> ls !! 1 = None ->
      (generate env w).1 = Raise IndexError).
Proof.
  intros Hload Hl0. rewrite generate_eq.
  unfold generate_result, deck_of_layouts. rewrite Hload, Hl0.
  split; [by intros ->|].
  split.
  - intros [j ->] ->. reflexivity.
  - intros [[i ->] [j ->]] ->. reflexivity.
Qed.

Lemma X4_witness :
  load_default_template blank_first_env = inr [blank_layout; content_layout]
  /\ find_ph 0 (clone_layout_placeholders blank_layout) = None
  /\ find_ph 1 (clone_layout_placeholders blank_layout) = None
  /\ (generate blank_first_env empty_world).1 = Raise KeyError.
Proof.
  split; [reflexivity|]. split; [reflexivity|]. split; [reflexivity|].
  apply (X4_which_lookup_fails blank_first_env empty_world
           [blank_layout; content_layout] blank_layout);
    reflexivity.
Defined.

(** X5. The script fills the title and placeholder 1 of each slide and
    nothing else: in the saved deck every other placeholder of either
    slide is as the layout handed it on, with its one empty paragraph. *)
Theorem X5_other_placeholders_untouched env w w' :
  generate env w = (Ok tt, w') ->
  exists d s1 s2 l0 l1,
    fs w' !! output_path env = Some (Pptx d)
    /\ slides d = [s1; s2]
    /\ slide_layouts d !! 0 = Some l0 /\ slide_layouts d !! 1 = Some l1
    /\ (forall n sh, clone_layout_placeholders l0 !! n = Some sh ->
                     ph_idx sh <> 0 -> ph_idx sh <> 1 ->
                     shapes s1 !! n = Some sh
                     /\ paragraphs sh = [EmptyString])
    /\ (forall n sh, clone_layout_placeholders l1 !! n = Some sh ->
                     ph_idx sh <> 0 -> ph_idx sh <> 1 ->
                     shapes s2 !! n = Some sh
                     /\ paragraphs sh = [EmptyString]).
Proof.
  intros (ls & d & Hload & Hd & _ & ->)%generate_Ok.
  apply deck_of_layouts_Ok in Hd
    as (l0 & l1 & i0 & j0 & i1 & j1 & Hl0 & Hl1 & Hi0 & Hj0 & Hi1 & Hj1 & ->).
  eexists _, (title_slide l0 i0 j0), (content_slide l1 i1 j1), l0, l1.
  cbn [saved_world fs slides slide_layouts]. rewrite lookup_insert_eq.
  assert (Hempty : forall l n sh,
            clone_layout_placeholders l !! n = Some sh ->
            paragraphs sh = [EmptyString]).
  { intros l n sh Hn. unfold clone_layout_placeholders in Hn.
    rewrite list_lookup_fmap in Hn.
    destruct (List.filter cloneable (layout_placeholders l) !! n); [|done].
    by injection Hn as <-. }
  repeat split; eauto.
  - unfold title_slide. cbn [shapes].
    by apply (other_shapes_kept _ i0 j0 n sh).
  - unfold content_slide. cbn [shapes].
    destruct (other_shapes_kept (clone_layout_placeholders l1) i1 j1 n sh id id)
      as (_ & Hni & Hnj); [done..|].
    by rewrite !list_lookup_alter_ne.
Qed.

Lemma X5_witness :
  generate wide_env empty_world = (Ok tt, (generate wide_env empty_world).2)
  /\ exists d s1 s2 l0 l1,
       fs (generate wide_env empty_world).2 !! output_path wide_env
       = Some (Pptx d)
       /\ slides d = [s1; s2]
       /\ slide_layouts d !! 0 = Some l0 /\ slide_layouts d !! 1 = Some l1
       /\ (forall n sh, clone_layout_placeholders l0 !! n = Some sh ->
                        ph_idx sh <> 0 -> ph_idx sh <> 1 ->
                        shapes s1 !! n = Some sh
                        /\ paragraphs sh = [EmptyString])
       /\ (forall n sh, clone_layout_placeholders l1 !! n = Some sh ->
                        ph_idx sh <> 0 -> ph_idx sh <> 1 ->
                        shapes s2 !! n = Some sh
                        /\ paragraphs sh = [EmptyString]).
Proof.
  split; [vm_compute; reflexivity|].
  apply (X5_other_placeholders_untouched wide_env empty_world).
  vm_compute; reflexivity.
Defined.

(** X6. When [__file__] contains no separator, as for a script started by
    its bare name, the directory part is empty and the output path is the
    bare file name "sample.pptx": no "./" and no separator is put in
    front of it. *)
Theorem X6_bare_script_name env :
  (forall c, In c (list_ascii_of_string (file__ env)) -> c <> "/"%char) ->
  output_path env = "sample.pptx".
Proof.
  intros Hsep. unfold output_path, Posixpath.join, Posixpath.dirname.
  rewrite list_ascii_of_string_of_list_ascii, dirname_chars_nosep; [reflexivity|].
  apply forallb_forall. intros c Hc. unfold Posixpath.is_sep.
  apply negb_true_iff, Ascii.eqb_neq. by apply Hsep.
Qed.

Lemma X6_witness :
  file__ bare_env = "create_test_ppt.py"
  /\ output_path bare_env = "sample.pptx".
Proof.
  split; [reflexivity|].
  apply (X6_bare_script_name bare_env).
  intros c Hc. vm_compute in Hc.
  repeat (destruct Hc as [<-|Hc]; [discriminate|]). destruct Hc.
Defined.

(** X7. The output path is absolute exactly when [__file__] is: a script
    path that starts with a separator gives an output path that starts
    with one, and a relative script path gives a relative output path. *)
Theorem X7_absolute_iff_script_path_is env :
  isabs (output_path env) = isabs (file__ env).
Proof.
  unfold isabs, output_path, Posixpath.join, Posixpath.dirname.
  rewrite !list_ascii_of_string_of_list_ascii.
  change (list_ascii_of_string "sample.pptx") with sample_pptx.
  by rewrite startswith_sep_join, startswith_sep_dirname.
Qed.

(** X8. When [__file__] contains no line feed, what a run that ends
    normally adds to standard output is one physical line: a text without
    any line feed, followed by the line terminator. *)
Theorem X8_one_physical_line env w w' :
  ~ In LF (list_ascii_of_string (file__ env)) ->
  generate env w = (Ok tt, w') ->
  exists line,
    stdout w' = (stdout w +:+ line +:+ newline)
    /\ line = ("Created test presentation at: " +:+ output_path env)
    /\ ~ In LF (list_ascii_of_string line).
Proof.
  intros Hlf (ls & d & _ & _ & _ & ->)%generate_Ok.
  exists (success_message (output_path env)).
  split; [reflexivity|]. split; [reflexivity|].
  by apply success_message_no_lf.
Qed.

Lemma X8_witness :
  ~ In LF (list_ascii_of_string (file__ sample_env))
  /\ generate sample_env empty_world
     = (Ok tt, (generate sample_env empty_world).2)
  /\ exists line,
       stdout (generate sample_env empty_world).2
       = (stdout empty_world +:+ line +:+ newline)
       /\ line = ("Created test presentation at: " +:+ output_path sample_env)
       /\ ~ In LF (list_ascii_of_string line).
Proof.
  assert (Hlf : ~ In LF (list_ascii_of_string (file__ sample_env))).
  { intros Hin. vm_compute in Hin.
    repeat (destruct Hin as [Hin|Hin]; [discriminate|]). destruct Hin. }
  split; [exact Hlf|].
  split; [vm_compute; reflexivity|].
  apply (X8_one_physical_line sample_env empty_world); [exact Hlf|].
  vm_compute; reflexivity.
Defined.

(** X9. A run ends normally exactly when the template can be loaded, it
    has a layout 0 and a layout 1, the slides made from both have a title
    shape and a placeholder with idx 1, the file system accepts the write
    at the output path, and standard output accepts the success line. *)
Theorem X9_success_condition env w :
  (generate env w).1 = Ok tt
  <-> exists ls l0 l1,
        load_default_template env = inr ls
        /\ ls !! 0 = Some l0 /\ ls !! 1 = Some l1
        /\ layout_fits l0 /\ layout_fits l1
        /\ fs_write env (output_path env) = WriteOk
        /\ stdout_write env (success_message (output_path env)) = PrintOk.
Proof.
  split.
  - destruct (generate env w) as [o w'] eqn:Hrun. cbn [fst]. intros ->.
    pose proof (generate_Ok_print _ _ _ Hrun) as Hp%print_outcome_None.
    apply generate_Ok in Hrun as (ls & d & Hload & Hd & Hw & _).
    apply deck_of_layouts_Ok in Hd
      as (l0 & l1 & i0 & j0 & i1 & j1 & Hl0 & Hl1 & Hi0 & Hj0 & Hi1 & Hj1 & _).
    exists ls, l0, l1. unfold layout_fits. rewrite Hi0, Hj0, Hi1, Hj1.
    repeat split; eauto.
  - intros (ls & l0 & l1 & Hload & Hl0 & Hl1 & [[i0 Hi0] [j0 Hj0]]
            & [[i1 Hi1] [j1 Hj1]] & Hw & Hp%print_outcome_None).
    rewrite generate_eq. unfold generate_result, deck_of_layouts.
    by rewrite Hload, Hl0, Hj0, Hi0, Hl1, Hj1, Hi1, Hw, Hp.
Qed.
